(** * cognito-local: the InitiateAuth and AdminSetUserMFAPreference targets

    A shallow embedding of [src/targets/initiateAuth.ts] and
    [src/targets/adminSetUserMFAPreference.ts].

    The two targets are small orchestrators over injected services (the
    Cognito facade, the user pool service, the trigger runtime, the token
    generator and the UUID source).  The targets are embedded as programs
    over the service calls they make, one constructor of [svc] per method
    they call; an [await]ed call is a [Vis] node, a [throw] is [Throw].
    The services themselves are not part of the two files; they are
    interpreted by [handle], which follows the written specification of the
    services. *)

From stdpp Require Import base decidable option list strings pretty gmap.
From Stdlib Require Import Ascii String.

Local Open Scope string_scope.

(** ** Errors ([src/errors]) *)

Inductive Error : Type :=
| InvalidParameterError (message : string)
| InvalidPasswordError
| NotAuthorizedError
| PasswordResetRequiredError
| UnsupportedError (message : string)
| UserNotConfirmedException
| ResourceNotFoundError
| TriggerFailure (message : string).

#[global] Instance Error_eq_dec : EqDecision Error.
Proof. solve_decision. Defined.

(** ** Data model *)

Record AttributeType := { Name : string; Value : string }.

Record MFAOption := { DeliveryMedium : string; AttributeName : string }.

Inductive UserStatusType : Type :=
| UNCONFIRMED | CONFIRMED | ARCHIVED | COMPROMISED | UNKNOWN
| RESET_REQUIRED | FORCE_CHANGE_PASSWORD | EXTERNAL_PROVIDER.

Record User := {
  Username : string;
  Password : string;
  UserStatus : UserStatusType;
  Enabled : bool;
  Attributes : list AttributeType;
  ConfirmationCode : option string;
  MFACode : option string;
  MFAOptions : option (list MFAOption);
  UserMFASettingList : option (list string);
  PreferredMfaSetting : option string;
  RefreshTokens : list string;
  UserCreateDate : nat;
  UserLastModifiedDate : nat
}.

#[global] Instance AttributeType_eq_dec : EqDecision AttributeType.
Proof. solve_decision. Defined.
#[global] Instance MFAOption_eq_dec : EqDecision MFAOption.
Proof. solve_decision. Defined.
#[global] Instance UserStatusType_eq_dec : EqDecision UserStatusType.
Proof. solve_decision. Defined.
#[global] Instance User_eq_dec : EqDecision User.
Proof. solve_decision. Defined.

Record UserPoolOptions := {
  Id : string;
  MfaConfiguration : option string
}.

Record AppClient := {
  ClientId : string;
  UserPoolId : string;
  ClientName : string
}.

Record Group := {
  GroupName : string;
  members : list string
}.

(** What [tokenGenerator.generate] resolves to; [verifyPasswordChallenge]
    reads its [RefreshToken] and both flows return the whole object as
    [AuthenticationResult]. *)
Record Tokens := {
  AccessToken : string;
  IdToken : string;
  RefreshToken : string
}.

#[global] Instance UserPoolOptions_eq_dec : EqDecision UserPoolOptions.
Proof. solve_decision. Defined.
#[global] Instance AppClient_eq_dec : EqDecision AppClient.
Proof. solve_decision. Defined.
#[global] Instance Tokens_eq_dec : EqDecision Tokens.
Proof. solve_decision. Defined.

(** The handle the facade returns: the targets read [userPool.options] and
    call the pool's methods through it. *)
Record UserPoolService := { options : UserPoolOptions }.

(** ** Requests and responses *)

Record InitiateAuthRequest := {
  AuthFlow : string;
  req_ClientId : string;
  AuthParameters : option (gmap string string);
  ClientMetadata : option (gmap string string)
}.

Record InitiateAuthResponse := {
  ChallengeName : option string;
  ChallengeParameters : option (gmap string string);
  Session : option string;
  AuthenticationResult : option Tokens
}.

Record MfaSettings := {
  mfa_Enabled : option bool;
  PreferredMfa : option bool
}.

Record UserMFAPreference := {
  pref_SMSMfaSettings : option MfaSettings;
  pref_SoftwareTokenMfaSettings : option MfaSettings
}.

Record AdminSetUserMFAPreferenceRequest := {
  admin_UserPoolId : string;
  admin_Username : string;
  SMSMfaSettings : option MfaSettings;
  SoftwareTokenMfaSettings : option MfaSettings;
  (* read by the target as [req.ClientId] and [req.ClientMetadata] *)
  admin_ClientId : option string;
  admin_ClientMetadata : option (gmap string string)
}.

(** The target answers with the empty object. *)
Inductive AdminSetUserMFAPreferenceResponse : Type := EmptyObject.

(** Trigger events, field by field as the targets build them. *)
Record PostAuthenticationEvent := {
  pa_clientId : option string;
  pa_clientMetadata : option (gmap string string);
  pa_source : string;
  pa_userAttributes : list AttributeType;
  pa_username : string;
  pa_userPoolId : string
}.

Record UserMigrationEvent := {
  um_clientId : string;
  um_password : option string;
  um_userAttributes : list AttributeType;
  um_username : option string;
  um_userPoolId : string;
  um_clientMetadata : option (gmap string string);
  um_validationData : option (gmap string string)
}.

(** ** Service calls

    One constructor per method the two targets call (the [ctx] argument,
    a logging context, is left out).  The index is the type the awaited
    promise resolves to. *)

Inductive svc : Type -> Type :=
(* services.cognito *)
| getUserPoolForClientId (clientId : string) : svc UserPoolService
| getUserPool (userPoolId : string) : svc UserPoolService
| getAppClient (clientId : string) : svc (option AppClient)
(* userPool *)
| getUserByUsername (userPool : UserPoolService) (username : option string)
  : svc (option User)
| getUserByRefreshToken (userPool : UserPoolService) (refreshToken : string)
  : svc (option User)
| listUserGroupMembership (userPool : UserPoolService) (user : User)
  : svc (list string)
| saveUser (userPool : UserPoolService) (user : User) : svc unit
| storeRefreshToken (userPool : UserPoolService) (refreshToken : string)
    (user : User) : svc unit
| setUserMFAPreference (userPool : UserPoolService) (user : User)
    (preference : UserMFAPreference) : svc unit
(* services.tokenGenerator *)
| generate (user : User) (userGroups : list string)
    (userPoolClient : AppClient)
    (clientMetadata : option (gmap string string)) (source : string)
  : svc Tokens
(* services.triggers *)
| triggers_enabled (trigger : string) : svc bool
| postAuthentication (event : PostAuthenticationEvent) : svc unit
| userMigration (event : UserMigrationEvent) : svc User
(* uuid *)
| v4 : svc string.

(** An async function body: it returns, throws, or awaits a service call
    and goes on with what the call resolved to. *)
Inductive prog (R : Type) : Type :=
| Ret (r : R)
| Throw (e : Error)
| Vis {X : Type} (c : svc X) (k : X -> prog R).

Arguments Ret {R} r.
Arguments Throw {R} e.
Arguments Vis {R X} c k.

Fixpoint bind {A B : Type} (m : prog A) (f : A -> prog B) : prog B :=
  match m with
  | Ret a => f a
  | Throw e => Throw e
  | Vis c k => Vis c (fun x => bind (k x) f)
  end.

Declare Scope prog_scope.
Delimit Scope prog_scope with prog.
Notation "'let*' x ':=' c 'in' k" := (Vis c (fun x => k%prog))
  (at level 10, x binder, c at level 100, k at level 200) : prog_scope.
Notation "'await*' x ':=' m 'in' k" := (bind m (fun x => k%prog))
  (at level 10, x binder, m at level 100, k at level 200) : prog_scope.
Local Open Scope prog_scope.

(** ** JavaScript helpers used by the targets *)

(** [l?.length] *)
Definition optional_length {A : Type} (l : option (list A)) : option nat :=
  option_map (@List.length A) l.

(** [!n] on an optional number: [undefined] and [0] are falsy. *)
Definition not_number (n : option nat) : bool :=
  match n with
  | None | Some 0 => true
  | Some (S _) => false
  end.

(** [l?.includes(x)] *)
Definition optional_includes (l : option (list string)) (x : string)
  : option bool :=
  option_map (fun l => bool_decide (x ∈ l)) l.

(** [!b] on an optional boolean. *)
Definition not_bool (b : option bool) : bool :=
  match b with
  | Some true => false
  | _ => true
  end.

(** [{ ...user, MFACode: code }] *)
Definition with_MFACode (user : User) (code : string) : User :=
  {| Username := Username user;
     Password := Password user;
     UserStatus := UserStatus user;
     Enabled := Enabled user;
     Attributes := Attributes user;
     ConfirmationCode := ConfirmationCode user;
     MFACode := Some code;
     MFAOptions := MFAOptions user;
     UserMFASettingList := UserMFASettingList user;
     PreferredMfaSetting := PreferredMfaSetting user;
     RefreshTokens := RefreshTokens user;
     UserCreateDate := UserCreateDate user;
     UserLastModifiedDate := UserLastModifiedDate user |}.

(** ** src/targets/initiateAuth.ts *)

Section InitiateAuthTarget.

(** [JSON.stringify(attributesToRecord(attrs))]: [attributesToRecord] lives
    in the user pool service and the serializer in the runtime; the
    composite is taken as given. *)
Variable stringifyAttributes : list AttributeType -> string.

Definition verifyMfaChallenge (user : User) (req : InitiateAuthRequest)
    (userPool : UserPoolService) : prog InitiateAuthResponse :=
  if not_number (optional_length (UserMFASettingList user)) then
    Throw NotAuthorizedError
  else
    let softwareTokenMfaOption :=
      optional_includes (UserMFASettingList user) "SOFTWARE_TOKEN_MFA" in
    if not_bool softwareTokenMfaOption then
      Throw (UnsupportedError "MFA challenge without SOFTWARE_TOKEN")
    else
      let code := "999999" in
      let* _ := saveUser userPool (with_MFACode user code) in
      let* session := v4 in
      Ret {| ChallengeName := Some "SOFTWARE_TOKEN_MFA";
             ChallengeParameters :=
               Some {[ "USER_ID_FOR_SRP" := Username user ]};
             Session := Some session;
             AuthenticationResult := None |}.

Definition verifyPasswordChallenge (user : User) (req : InitiateAuthRequest)
    (userPool : UserPoolService) (userPoolClient : AppClient)
  : prog InitiateAuthResponse :=
  let* userGroups := listUserGroupMembership userPool user in
  let* tokens :=
    generate user userGroups userPoolClient None "Authentication" in
  let* _ := storeRefreshToken userPool (RefreshToken tokens) user in
  Ret {| ChallengeName := Some "PASSWORD_VERIFIER";
         ChallengeParameters := Some ∅;
         Session := None;
         AuthenticationResult := Some tokens |}.

Definition newPasswordChallenge (user : User) : prog InitiateAuthResponse :=
  let* session := v4 in
  Ret {| ChallengeName := Some "NEW_PASSWORD_REQUIRED";
         ChallengeParameters :=
           Some (<[ "USER_ID_FOR_SRP" := Username user ]>
                 (<[ "requiredAttributes" := "[]" ]>
                 {[ "userAttributes" :=
                      stringifyAttributes (Attributes user) ]}));
         Session := Some session;
         AuthenticationResult := None |}.

(** The MFA gate of [userPasswordAuthFlow]:
    [(MfaConfiguration === "OPTIONAL" && (user.MFAOptions ?? []).length > 0)
     || MfaConfiguration === "ON"]. *)
Definition mfaGate (userPool : UserPoolService) (user : User) : bool :=
  (bool_decide (MfaConfiguration (options userPool) = Some "OPTIONAL")
   && bool_decide (0 < List.length (default [] (MFAOptions user))))
  || bool_decide (MfaConfiguration (options userPool) = Some "ON").

Definition userPasswordAuthFlow (req : InitiateAuthRequest)
    (userPool : UserPoolService) (userPoolClient : AppClient)
  : prog InitiateAuthResponse :=
  match AuthParameters req with
  | None =>
      Throw (InvalidParameterError "Missing required parameter authParameters")
  | Some authParameters =>
      let* user := getUserByUsername userPool (authParameters !! "USERNAME") in
      (* [let user] is reassigned when the lookup misses and migration is on *)
      await* user :=
        match user with
        | Some _ => Ret user
        | None =>
            let* migration := triggers_enabled "UserMigration" in
            if migration : bool then
              let* migrated :=
                userMigration
                  {| um_clientId := req_ClientId req;
                     um_password := authParameters !! "PASSWORD";
                     um_userAttributes := [];
                     um_username := authParameters !! "USERNAME";
                     um_userPoolId := Id (options userPool);
                     um_clientMetadata := None;
                     um_validationData := ClientMetadata req |} in
              Ret (Some migrated)
            else Ret None
        end in
      match user with
      | None => Throw NotAuthorizedError
      | Some user =>
          if bool_decide (UserStatus user = RESET_REQUIRED) then
            Throw PasswordResetRequiredError
          else if bool_decide (UserStatus user = FORCE_CHANGE_PASSWORD) then
            newPasswordChallenge user
          else if bool_decide
                    (Some (Password user) ≠ authParameters !! "PASSWORD") then
            Throw InvalidPasswordError
          else if bool_decide (UserStatus user = UNCONFIRMED) then
            Throw UserNotConfirmedException
          else if mfaGate userPool user then
            verifyMfaChallenge user req userPool
          else
            let* postAuth := triggers_enabled "PostAuthentication" in
            await* _ :=
              (if postAuth : bool then
                 let* _ :=
                   postAuthentication
                     {| pa_clientId := Some (req_ClientId req);
                        pa_clientMetadata := None;
                        pa_source := "PostAuthentication_Authentication";
                        pa_userAttributes := Attributes user;
                        pa_username := Username user;
                        pa_userPoolId := Id (options userPool) |} in
                 Ret tt
               else Ret tt) in
            verifyPasswordChallenge user req userPool userPoolClient
      end
  end.

Definition refreshTokenAuthFlow (req : InitiateAuthRequest)
    (userPool : UserPoolService) (userPoolClient : AppClient)
  : prog InitiateAuthResponse :=
  match AuthParameters req with
  | None =>
      Throw (InvalidParameterError "Missing required parameter authParameters")
  | Some authParameters =>
      match authParameters !! "REFRESH_TOKEN" with
      | None | Some EmptyString =>
          (* [!req.AuthParameters.REFRESH_TOKEN]: absent or empty *)
          Throw
            (InvalidParameterError "AuthParameters REFRESH_TOKEN is required")
      | Some refreshToken =>
          let* user := getUserByRefreshToken userPool refreshToken in
          match user with
          | None => Throw NotAuthorizedError
          | Some user =>
              let* userGroups := listUserGroupMembership userPool user in
              let* tokens :=
                generate user userGroups userPoolClient (ClientMetadata req)
                  "RefreshTokens" in
              let* session := v4 in
              Ret {| ChallengeName := None;
                     Session := Some session;
                     ChallengeParameters := None;
                     AuthenticationResult := Some tokens |}
          end
      end
  end.

Definition InitiateAuth (req : InitiateAuthRequest)
  : prog InitiateAuthResponse :=
  let* userPool := getUserPoolForClientId (req_ClientId req) in
  let* userPoolClient := getAppClient (req_ClientId req) in
  match userPoolClient with
  | None => Throw NotAuthorizedError
  | Some userPoolClient =>
      if bool_decide (AuthFlow req = "USER_PASSWORD_AUTH") then
        await* authResponse :=
          userPasswordAuthFlow req userPool userPoolClient in
        Ret authResponse
      else if bool_decide (AuthFlow req = "REFRESH_TOKEN")
              || bool_decide (AuthFlow req = "REFRESH_TOKEN_AUTH") then
        await* authResponse :=
          refreshTokenAuthFlow req userPool userPoolClient in
        Ret authResponse
      else
        Throw (UnsupportedError ("InitAuth with AuthFlow=" ++ AuthFlow req))
  end.

End InitiateAuthTarget.

(** ** src/targets/adminSetUserMFAPreference.ts *)

Definition AdminSetUserMFAPreference (req : AdminSetUserMFAPreferenceRequest)
  : prog AdminSetUserMFAPreferenceResponse :=
  (* Fetch the user pool for the given user *)
  let* userPool := getUserPool (admin_UserPoolId req) in
  let* user := getUserByUsername userPool (Some (admin_Username req)) in
  match user with
  | None => Throw (InvalidParameterError "User does not exist")
  | Some user =>
      (* Prepare MFA settings *)
      let smsMfaSettings :=
        match SMSMfaSettings req with
        | Some s =>
            Some {| mfa_Enabled := mfa_Enabled s;
                    PreferredMfa := PreferredMfa s |}
        | None => None
        end in
      let softwareTokenMfaSettings :=
        match SoftwareTokenMfaSettings req with
        | Some s =>
            Some {| mfa_Enabled := mfa_Enabled s;
                    PreferredMfa := PreferredMfa s |}
        | None => None
        end in
      (* Update user MFA preferences *)
      let* _ :=
        setUserMFAPreference userPool user
          {| pref_SMSMfaSettings := smsMfaSettings;
             pref_SoftwareTokenMfaSettings := softwareTokenMfaSettings |} in
      (* Invoke PostAuthentication if applicable *)
      let* postAuth := triggers_enabled "PostAuthentication" in
      await* _ :=
        (if postAuth : bool then
           let* _ :=
             postAuthentication
               {| pa_clientId := admin_ClientId req;
                  pa_clientMetadata := admin_ClientMetadata req;
                  pa_source := "PostAuthentication_Authentication";
                  pa_username := Username user;
                  pa_userPoolId := Id (options userPool);
                  pa_userAttributes := Attributes user |} in
           Ret tt
         else Ret tt) in
      Ret EmptyObject
  end.

(** ** scripts/dockerBuildPush.sh

    The script takes the version as its first argument, derives the major
    version from it and has docker build and push the image under three
    tags.  Pathname expansion and docker itself are outside the script:
    [glob] is what the shell makes of a word after splitting, [docker] the
    exit status of the docker command for its arguments. *)

Module DockerBuildPush.

Definition is_ifs (c : ascii) : bool :=
  bool_decide (c = " "%char)
  || bool_decide (c = ascii_of_nat 9)
  || bool_decide (c = ascii_of_nat 10).

(** [${version//./ }] *)
Fixpoint dots_to_spaces (s : string) : string :=
  match s with
  | EmptyString => EmptyString
  | String c s' =>
      String (if bool_decide (c = "."%char) then " "%char else c)
        (dots_to_spaces s')
  end.

(** Word splitting on the default IFS: the word that starts the string (still
    open to the left), and the words after it. *)
Fixpoint scan (s : string) : string * list string :=
  match s with
  | EmptyString => (EmptyString, [])
  | String c s' =>
      let '(word, words) := scan s' in
      if is_ifs c then
        (EmptyString,
         if bool_decide (word = EmptyString) then words else word :: words)
      else (String c word, words)
  end.

Definition split (s : string) : list string :=
  let '(word, words) := scan s in
  if bool_decide (word = EmptyString) then words else word :: words.

(** An unquoted expansion: word splitting, then pathname expansion of each
    word. *)
Definition unquoted (glob : string -> list string) (s : string)
  : list string :=
  List.concat (List.map glob (split s)).

(** What a run shows: the exit status, the lines the script itself writes
    to its two streams, and the docker commands it has run. *)
Record Result := {
  exit_status : nat;
  stdout : list string;
  stderr : list string;
  docker_runs : list (list string)
}.

Definition quote : string := String (ascii_of_nat 34) EmptyString.

(** The line the script prints after a successful push. *)
Definition published : string :=
  "{" +:+ quote +:+ "name" +:+ quote +:+ ":" +:+ quote +:+ "Docker" +:+ quote
  +:+ "," +:+ quote +:+ "url" +:+ quote +:+ ":" +:+ quote
  +:+ "https://hub.docker.com/r/idzingirai/cognito-local" +:+ quote +:+ "}".

Definition major_version (glob : string -> list string) (version : string)
  : string :=
  let versionArr := unquoted glob (dots_to_spaces version) in
  List.nth 0 versionArr EmptyString.

Definition command (glob : string -> list string) (version : string)
  : list string :=
  (["buildx"; "build";
    "--platform"; "linux/amd64,linux/arm64";
    "--tag"; "idzingirai/cognito-local:latest";
    "--tag"]
   ++ unquoted glob
        ("idzingirai/cognito-local:" +:+ major_version glob version
         +:+ "-latest")
   ++ ["--tag"]
   ++ unquoted glob ("idzingirai/cognito-local:" +:+ version)
   ++ ["--push"; "."])%list.

(** The script, run under [bash -e] with the positional parameters
    [args]. *)
Definition dockerBuildPush (glob : string -> list string)
    (docker : list string -> nat) (args : list string) : Result :=
  let version := List.nth 0 args EmptyString in
  if bool_decide (version = EmptyString) then
    {| exit_status := 1;
       stdout := [];
       stderr := ["Missing version"];
       docker_runs := [] |}
  else
    let status := docker (command glob version) in
    if bool_decide (status = 0) then
      {| exit_status := 0;
         stdout := [published];
         stderr := [];
         docker_runs := [command glob version] |}
    else
      {| exit_status := status;
         stdout := [];
         stderr := [];
         docker_runs := [command glob version] |}.

(** A string the shell leaves alone: no IFS white space, and none of the
    characters that make a word a pattern (the three pattern characters and
    the backslash). *)
Fixpoint plain (s : string) : bool :=
  match s with
  | EmptyString => true
  | String c s' =>
      negb (is_ifs c)
      && negb (bool_decide (c = "*"%char))
      && negb (bool_decide (c = "?"%char))
      && negb (bool_decide (c = "["%char))
      && negb (bool_decide (c = ascii_of_nat 92))
      && plain s'
  end.

Fixpoint dotless (s : string) : bool :=
  match s with
  | EmptyString => true
  | String c s' => negb (bool_decide (c = "."%char)) && dotless s'
  end.

(** What the shell guarantees of pathname expansion: a word without pattern
    characters stands for itself. *)
Definition leaves_plain_words (glob : string -> list string) : Prop :=
  forall word, plain word = true -> glob word = [word].

Fixpoint dots (n : nat) : string :=
  match n with
  | 0 => EmptyString
  | S n' => String "."%char (dots n')
  end.

End DockerBuildPush.

(** ** The services

    The user pool service, the Cognito facade, the trigger runtime and the
    token generator are injected into the targets and are not part of the
    two target files.  Their behaviour below follows the written
    specification of the services (data model, section 4.2 to 4.5). *)

(** Modelled from the spec: the pool aggregate; the pool owns the tables of
    users, groups and app clients, users are values keyed by [Username].
    A pool is identified by its [Id], the key it is stored under. *)
Record UserPool := {
  pool_MfaConfiguration : option string;
  pool_users : gmap string User;
  pool_groups : list Group;
  pool_clients : list AppClient
}.

(** Modelled from the spec: the facade's state ([pools] and [clientIndex]),
    with the injected clock and the counter behind the UUID source. *)
Record Store := {
  pools : gmap string UserPool;
  clientIndex : gmap string string;
  next_id : nat;
  clock : nat
}.

#[global] Instance Group_eq_dec : EqDecision Group.
Proof. solve_decision. Defined.
#[global] Instance UserPool_eq_dec : EqDecision UserPool.
Proof. solve_decision. Defined.
#[global] Instance Store_eq_dec : EqDecision Store.
Proof. solve_decision. Defined.

(** Modelled from the spec: what is injected and fixed for a run; the hooks
    the pool binds, the user-provided handlers of the two hooks the targets
    invoke, the token generator (fed from the id source) and the UUID
    generator. *)
Record Services := {
  triggers_bound : list string;
  postAuthentication_handler : PostAuthenticationEvent -> option Error;
  userMigration_handler : UserMigrationEvent -> option User;
  tokenGenerator :
    nat -> User -> list string -> AppClient -> option (gmap string string) ->
    string -> Error + Tokens;
  uuid : nat -> string
}.

Inductive Outcome (R : Type) : Type :=
| Returned (r : R)
| Thrown (e : Error).

Arguments Returned {R} r.
Arguments Thrown {R} e.

(** Modelled from the spec: usernames are case-preserving with
    case-insensitive lookup; the users table is keyed by the lower-cased
    name. *)
Definition lower_ascii (c : ascii) : ascii :=
  let n := nat_of_ascii c in
  if Nat.leb 65 n && Nat.leb n 90 then ascii_of_nat (n + 32) else c.

Fixpoint lowercase (s : string) : string :=
  match s with
  | EmptyString => EmptyString
  | String c s' => String (lower_ascii c) (lowercase s')
  end.

(** Modelled from the spec: the handle of the pool stored under an id. *)
Definition handle_of (st : Store) (userPoolId : string)
  : option UserPoolService :=
  (fun p =>
     {| options :=
          {| Id := userPoolId;
             MfaConfiguration := pool_MfaConfiguration p |} |})
  <$> pools st !! userPoolId.

(** Modelled from the spec: [getUserPoolForClientId] resolves through the
    client index; [getAppClient] scans the resolved pool's clients. *)
Definition poolForClient (st : Store) (clientId : string)
  : option UserPoolService :=
  clientIndex st !! clientId ≫= handle_of st.

Definition appClient (st : Store) (clientId : string) : option AppClient :=
  p ← (clientIndex st !! clientId ≫= (pools st !!.));
  List.find (fun c => bool_decide (ClientId c = clientId)) (pool_clients p).

(** Modelled from the spec: the users table behind a handle. *)
Definition users_of (st : Store) (userPool : UserPoolService)
  : gmap string User :=
  match pools st !! Id (options userPool) with
  | Some p => pool_users p
  | None => ∅
  end.

(** Modelled from the spec: [getUserByUsername] returns the user or null. *)
Definition lookupUser (st : Store) (userPool : UserPoolService)
    (username : option string) : option User :=
  match username with
  | Some name => users_of st userPool !! lowercase name
  | None => None
  end.

(** Modelled from the spec: [getUserByRefreshToken] resolves a token through
    the index derived from the users table. *)
Definition lookupRefreshToken (st : Store) (userPool : UserPoolService)
    (refreshToken : string) : option User :=
  snd <$> List.find (fun kv => bool_decide (refreshToken ∈ RefreshTokens kv.2))
            (map_to_list (users_of st userPool)).

(** Modelled from the spec: [listUserGroupMembership] names the groups
    whose member list holds the user. *)
Definition groupsOf (st : Store) (userPool : UserPoolService) (user : User)
  : list string :=
  match pools st !! Id (options userPool) with
  | Some p =>
      GroupName <$>
        List.filter (fun g => bool_decide (Username user ∈ members g))
          (pool_groups p)
  | None => []
  end.

Definition touch (now : nat) (user : User) : User :=
  {| Username := Username user;
     Password := Password user;
     UserStatus := UserStatus user;
     Enabled := Enabled user;
     Attributes := Attributes user;
     ConfirmationCode := ConfirmationCode user;
     MFACode := MFACode user;
     MFAOptions := MFAOptions user;
     UserMFASettingList := UserMFASettingList user;
     PreferredMfaSetting := PreferredMfaSetting user;
     RefreshTokens := RefreshTokens user;
     UserCreateDate := UserCreateDate user;
     UserLastModifiedDate := now |}.

Definition with_users (f : gmap string User -> gmap string User)
    (p : UserPool) : UserPool :=
  {| pool_MfaConfiguration := pool_MfaConfiguration p;
     pool_users := f (pool_users p);
     pool_groups := pool_groups p;
     pool_clients := pool_clients p |}.

(** Modelled from the spec: [saveUser] is an upsert that stamps
    [LastModifiedDate] with the current wall clock. *)
Definition putUser (userPoolId : string) (user : User) (st : Store) : Store :=
  {| pools :=
       alter (with_users (<[ lowercase (Username user) := touch (clock st) user ]>))
         userPoolId (pools st);
     clientIndex := clientIndex st;
     next_id := next_id st;
     clock := clock st |}.

(** Modelled from the spec: [storeRefreshToken] adds the token to the user's
    refresh-token set (storing it twice leaves the set unchanged). *)
Definition with_RefreshToken (user : User) (refreshToken : string) : User :=
  {| Username := Username user;
     Password := Password user;
     UserStatus := UserStatus user;
     Enabled := Enabled user;
     Attributes := Attributes user;
     ConfirmationCode := ConfirmationCode user;
     MFACode := MFACode user;
     MFAOptions := MFAOptions user;
     UserMFASettingList := UserMFASettingList user;
     PreferredMfaSetting := PreferredMfaSetting user;
     RefreshTokens :=
       if bool_decide (refreshToken ∈ RefreshTokens user)
       then RefreshTokens user
       else app (RefreshTokens user) [refreshToken];
     UserCreateDate := UserCreateDate user;
     UserLastModifiedDate := UserLastModifiedDate user |}.

Definition mfa_enabled (s : option MfaSettings) : bool :=
  match s with
  | Some {| mfa_Enabled := Some true |} => true
  | _ => false
  end.

Definition mfa_preferred (s : option MfaSettings) : bool :=
  match s with
  | Some {| mfa_Enabled := Some true; PreferredMfa := Some true |} => true
  | _ => false
  end.

(** Modelled from the spec: [setUserMFAPreference] updates [MFAOptions],
    [UserMFASettingList] and [PreferredMfaSetting] together; absent or
    disabled settings clear the corresponding entries. *)
Definition with_MFAPreference (user : User) (preference : UserMFAPreference)
  : User :=
  let sms := pref_SMSMfaSettings preference in
  let software := pref_SoftwareTokenMfaSettings preference in
  {| Username := Username user;
     Password := Password user;
     UserStatus := UserStatus user;
     Enabled := Enabled user;
     Attributes := Attributes user;
     ConfirmationCode := ConfirmationCode user;
     MFACode := MFACode user;
     MFAOptions :=
       Some (if mfa_enabled sms
             then [ {| DeliveryMedium := "SMS";
                       AttributeName := "phone_number" |} ]
             else []);
     UserMFASettingList :=
       Some (app (if mfa_enabled sms then ["SMS_MFA"] else [])
               (if mfa_enabled software then ["SOFTWARE_TOKEN_MFA"] else []));
     PreferredMfaSetting :=
       if mfa_preferred software then Some "SOFTWARE_TOKEN_MFA"
       else if mfa_preferred sms then Some "SMS_MFA"
       else None;
     RefreshTokens := RefreshTokens user;
     UserCreateDate := UserCreateDate user;
     UserLastModifiedDate := UserLastModifiedDate user |}.

(** Modelled from the spec: the id source moves on after each draw. *)
Definition draw (st : Store) : Store :=
  {| pools := pools st;
     clientIndex := clientIndex st;
     next_id := S (next_id st);
     clock := clock st |}.

(** Modelled from the spec: the behaviour of each service call on the
    store.  [getUserPoolForClientId] fails with [ResourceNotFound] for an
    unknown client, [getAppClient] scans the resolved pool's clients, a
    bound hook's failure is the call's failure, a migration that yields no
    user is treated as user-not-found, and a migrated user is persisted. *)
Definition handle (sv : Services) {X : Type} (c : svc X) (st : Store)
  : Outcome X * Store :=
  match c in svc X return Outcome X * Store with
  | getUserPoolForClientId clientId =>
      match poolForClient st clientId with
      | Some userPool => (Returned userPool, st)
      | None => (Thrown ResourceNotFoundError, st)
      end
  | getUserPool userPoolId =>
      match handle_of st userPoolId with
      | Some userPool => (Returned userPool, st)
      | None => (Thrown ResourceNotFoundError, st)
      end
  | getAppClient clientId =>
      (Returned (appClient st clientId), st)
  | getUserByUsername userPool username =>
      (Returned (lookupUser st userPool username), st)
  | getUserByRefreshToken userPool refreshToken =>
      (Returned (lookupRefreshToken st userPool refreshToken), st)
  | listUserGroupMembership userPool user =>
      (Returned (groupsOf st userPool user), st)
  | saveUser userPool user =>
      (Returned tt, putUser (Id (options userPool)) user st)
  | storeRefreshToken userPool refreshToken user =>
      (Returned tt,
       putUser (Id (options userPool)) (with_RefreshToken user refreshToken) st)
  | setUserMFAPreference userPool user preference =>
      (Returned tt,
       putUser (Id (options userPool)) (with_MFAPreference user preference) st)
  | generate user userGroups userPoolClient clientMetadata source =>
      match tokenGenerator sv (next_id st) user userGroups userPoolClient
              clientMetadata source with
      | inr tokens => (Returned tokens, draw st)
      | inl e => (Thrown e, st)
      end
  | triggers_enabled trigger =>
      (Returned (bool_decide (trigger ∈ triggers_bound sv)), st)
  | postAuthentication event =>
      match postAuthentication_handler sv event with
      | None => (Returned tt, st)
      | Some e => (Thrown e, st)
      end
  | userMigration event =>
      match userMigration_handler sv event with
      | Some user => (Returned user, putUser (um_userPoolId event) user st)
      | None => (Thrown NotAuthorizedError, st)
      end
  | v4 => (Returned (uuid sv (next_id st)), draw st)
  end.

Arguments handle_of : simpl never.
Arguments poolForClient : simpl never.
Arguments appClient : simpl never.
Arguments lookupUser : simpl never.
Arguments lookupRefreshToken : simpl never.
Arguments groupsOf : simpl never.
Arguments putUser : simpl never.

(** ** Running a target *)

Inductive call : Type :=
| Call {X : Type} (c : svc X).

Record Run (R : Type) := {
  outcome : Outcome R;
  final : Store;
  trace : list call
}.

Arguments outcome {R} r.
Arguments final {R} r.
Arguments trace {R} r.

Definition logged {R : Type} (c : call) (r : Run R) : Run R :=
  {| outcome := outcome r; final := final r; trace := c :: trace r |}.

Fixpoint run (sv : Services) {R : Type} (p : prog R) (st : Store) : Run R :=
  match p with
  | Ret r => {| outcome := Returned r; final := st; trace := [] |}
  | Throw e => {| outcome := Thrown e; final := st; trace := [] |}
  | Vis c k =>
      match handle sv c st with
      | (Returned x, st') => logged (Call c) (run sv (k x) st')
      | (Thrown e, st') =>
          {| outcome := Thrown e; final := st'; trace := [Call c] |}
      end
  end.

(** What a trace entry is, without its arguments' types getting in the way. *)
Definition is_generate (c : call) : bool :=
  match c with
  | Call (generate _ _ _ _ _) => true
  | _ => false
  end.


Definition is_storeRefreshToken (c : call) : bool :=
  match c with
  | Call (storeRefreshToken _ _ _) => true
  | _ => false
  end.

(** The calls that write to a pool's users table. *)
Definition is_write (c : call) : bool :=
  match c with
  | Call (saveUser _ _)
  | Call (storeRefreshToken _ _ _)
  | Call (setUserMFAPreference _ _ _)
  | Call (userMigration _) => true
  | _ => false
  end.

(** Every value the program can return, whatever the services answer,
    satisfies [P]. *)
Fixpoint returns_only {R : Type} (P : R -> Prop) (p : prog R) : Prop :=
  match p with
  | Ret r => P r
  | Throw _ => True
  | Vis c k => forall x, returns_only P (k x)
  end.

(** The operations of the two target files. *)
Inductive Operation : Type :=
| Op_InitiateAuth (req : InitiateAuthRequest)
| Op_AdminSetUserMFAPreference (req : AdminSetUserMFAPreferenceRequest).

(** The password flow's credential checks, in the order of the source:
    the two status branches, the password comparison, the UNCONFIRMED
    branch. *)
Definition passesCredentialChecks (user : User) (password : option string)
  : Prop :=
  UserStatus user ≠ RESET_REQUIRED
  ∧ UserStatus user ≠ FORCE_CHANGE_PASSWORD
  ∧ password = Some (Password user)
  ∧ UserStatus user ≠ UNCONFIRMED.

(** The event [userPasswordAuthFlow] hands to the PostAuthentication
    trigger. *)
Definition loginEvent (req : InitiateAuthRequest) (userPool : UserPoolService)
    (user : User) : PostAuthenticationEvent :=
  {| pa_clientId := Some (req_ClientId req);
     pa_clientMetadata := None;
     pa_source := "PostAuthentication_Authentication";
     pa_userAttributes := Attributes user;
     pa_username := Username user;
     pa_userPoolId := Id (options userPool) |}.

(** The event [userPasswordAuthFlow] hands to the UserMigration trigger. *)
Definition migrationEvent (req : InitiateAuthRequest)
    (userPool : UserPoolService) (authParameters : gmap string string)
  : UserMigrationEvent :=
  {| um_clientId := req_ClientId req;
     um_password := authParameters !! "PASSWORD";
     um_userAttributes := [];
     um_username := authParameters !! "USERNAME";
     um_userPoolId := Id (options userPool);
     um_clientMetadata := None;
     um_validationData := ClientMetadata req |}.

(** The user the password flow goes on with: the one the lookup finds, or,
    when the lookup misses and UserMigration is bound, the one the trigger
    returns. *)
Definition resolvesUser (sv : Services) (st : Store)
    (req : InitiateAuthRequest) (userPool : UserPoolService)
    (authParameters : gmap string string) (user : User) : Prop :=
  lookupUser st userPool (authParameters !! "USERNAME") = Some user
  \/ (lookupUser st userPool (authParameters !! "USERNAME") = None
      /\ "UserMigration" ∈ triggers_bound sv
      /\ userMigration_handler sv (migrationEvent req userPool authParameters)
         = Some user).

(** What resolving the user adds to the trace after the lookup, and the
    store the flow goes on with: a migrated user has been persisted. *)
Definition migrationCalls (st : Store) (req : InitiateAuthRequest)
    (userPool : UserPoolService) (authParameters : gmap string string)
  : list call :=
  match lookupUser st userPool (authParameters !! "USERNAME") with
  | Some _ => []
  | None =>
      [Call (triggers_enabled "UserMigration");
       Call (userMigration (migrationEvent req userPool authParameters))]
  end.

Definition afterResolution (st : Store) (userPool : UserPoolService)
    (authParameters : gmap string string) (user : User) : Store :=
  match lookupUser st userPool (authParameters !! "USERNAME") with
  | Some _ => st
  | None => putUser (Id (options userPool)) user st
  end.

Arguments migrationCalls : simpl never.
Arguments afterResolution : simpl never.

(** The event [AdminSetUserMFAPreference] hands to the PostAuthentication
    trigger. *)
Definition adminEvent (req : AdminSetUserMFAPreferenceRequest)
    (userPool : UserPoolService) (user : User) : PostAuthenticationEvent :=
  {| pa_clientId := admin_ClientId req;
     pa_clientMetadata := admin_ClientMetadata req;
     pa_source := "PostAuthentication_Authentication";
     pa_userAttributes := Attributes user;
     pa_username := Username user;
     pa_userPoolId := Id (options userPool) |}.

(** The events the PostAuthentication trigger was invoked with. *)
Fixpoint postAuthentication_events (t : list call)
  : list PostAuthenticationEvent :=
  match t with
  | [] => []
  | Call (postAuthentication event) :: t' =>
      event :: postAuthentication_events t'
  | _ :: t' => postAuthentication_events t'
  end.

Definition trace_of (sv : Services)
    (stringifyAttributes : list AttributeType -> string)
    (op : Operation) (st : Store) : list call :=
  match op with
  | Op_InitiateAuth req => trace (run sv (InitiateAuth stringifyAttributes req) st)
  | Op_AdminSetUserMFAPreference req =>
      trace (run sv (AdminSetUserMFAPreference req) st)
  end.

(** The shapes of a response of InitiateAuth. *)
Definition loginResult (r : InitiateAuthResponse) : Prop :=
  is_Some (AuthenticationResult r)
  /\ ChallengeName r = Some "PASSWORD_VERIFIER"
  /\ ChallengeParameters r = Some ∅
  /\ Session r = None.

Definition refreshResult (r : InitiateAuthResponse) : Prop :=
  is_Some (AuthenticationResult r)
  /\ ChallengeName r = None
  /\ ChallengeParameters r = None
  /\ is_Some (Session r).

Definition pendingChallenge (r : InitiateAuthResponse) : Prop :=
  AuthenticationResult r = None
  /\ (ChallengeName r = Some "NEW_PASSWORD_REQUIRED"
      \/ ChallengeName r = Some "SOFTWARE_TOKEN_MFA")
  /\ is_Some (ChallengeParameters r)
  /\ is_Some (Session r).

(** Which flow answers with which shape. *)
Definition responseOf (req : InitiateAuthRequest) (r : InitiateAuthResponse)
  : Prop :=
  (AuthFlow req = "USER_PASSWORD_AUTH"
   /\ (loginResult r \/ pendingChallenge r))
  \/ ((AuthFlow req = "REFRESH_TOKEN" \/ AuthFlow req = "REFRESH_TOKEN_AUTH")
      /\ refreshResult r).

(** ** A pool to run the targets on

    The pool of the end-to-end scenarios: pool [us-east-1_S1] with MFA off
    and client [c1], a second pool with MFA on and client [c2], and an
    id-fed token generator that issues three fresh tokens per call. *)

Module Scenario.

Definition newUser (name password : string) (status : UserStatusType) : User :=
  {| Username := name;
     Password := password;
     UserStatus := status;
     Enabled := true;
     Attributes := [];
     ConfirmationCode := None;
     MFACode := None;
     MFAOptions := None;
     UserMFASettingList := None;
     PreferredMfaSetting := None;
     RefreshTokens := [];
     UserCreateDate := 0;
     UserLastModifiedDate := 0 |}.

Definition alice : User :=
  {| Username := "alice";
     Password := "p@ss";
     UserStatus := CONFIRMED;
     Enabled := true;
     Attributes := [];
     ConfirmationCode := None;
     MFACode := None;
     MFAOptions := None;
     UserMFASettingList := None;
     PreferredMfaSetting := None;
     RefreshTokens := ["rt-alice-1"; "rt-alice-2"];
     UserCreateDate := 0;
     UserLastModifiedDate := 0 |}.

Definition bob : User := newUser "bob" "hunter2" UNCONFIRMED.
Definition carol : User := newUser "carol" "temporary" FORCE_CHANGE_PASSWORD.
Definition dave : User := newUser "dave" "forgotten" RESET_REQUIRED.

Definition erin : User :=
  {| Username := "erin";
     Password := "s3cret";
     UserStatus := CONFIRMED;
     Enabled := true;
     Attributes := [];
     ConfirmationCode := None;
     MFACode := None;
     MFAOptions := None;
     UserMFASettingList := Some ["SOFTWARE_TOKEN_MFA"];
     PreferredMfaSetting := Some "SOFTWARE_TOKEN_MFA";
     RefreshTokens := [];
     UserCreateDate := 0;
     UserLastModifiedDate := 0 |}.

Definition c1 : AppClient :=
  {| ClientId := "c1"; UserPoolId := "us-east-1_S1"; ClientName := "web" |}.
Definition c2 : AppClient :=
  {| ClientId := "c2"; UserPoolId := "us-east-1_S2"; ClientName := "web" |}.

Definition pool1 : UserPool :=
  {| pool_MfaConfiguration := Some "OFF";
     pool_users :=
       <[ "alice" := alice ]> (<[ "bob" := bob ]> (<[ "carol" := carol ]>
       {[ "dave" := dave ]}));
     pool_groups := [ {| GroupName := "admins"; members := ["alice"] |} ];
     pool_clients := [c1] |}.

Definition pool2 : UserPool :=
  {| pool_MfaConfiguration := Some "ON";
     pool_users := {[ "erin" := erin ]};
     pool_groups := [];
     pool_clients := [c2] |}.

Definition store : Store :=
  {| pools := <[ "us-east-1_S1" := pool1 ]> {[ "us-east-1_S2" := pool2 ]};
     clientIndex := <[ "c1" := "us-east-1_S1" ]> {[ "c2" := "us-east-1_S2" ]};
     next_id := 0;
     clock := 1000 |}.

Definition userPool1 : UserPoolService :=
  {| options := {| Id := "us-east-1_S1"; MfaConfiguration := Some "OFF" |} |}.
Definition userPool2 : UserPoolService :=
  {| options := {| Id := "us-east-1_S2"; MfaConfiguration := Some "ON" |} |}.

Definition freshTokens (seed : nat) (user : User) (userGroups : list string)
    (userPoolClient : AppClient) (clientMetadata : option (gmap string string))
    (source : string) : Error + Tokens :=
  inr {| AccessToken := "access-" +:+ pretty seed;
         IdToken := "id-" +:+ pretty seed;
         RefreshToken := "refresh-" +:+ pretty seed |}.

(** What [freshTokens] issues from the store's first id. *)
Definition tokens0 : Tokens :=
  {| AccessToken := "access-0";
     IdToken := "id-0";
     RefreshToken := "refresh-0" |}.

(** What alice's password login is answered with. *)
Definition loginResponse : InitiateAuthResponse :=
  {| ChallengeName := Some "PASSWORD_VERIFIER";
     ChallengeParameters := Some ∅;
     Session := None;
     AuthenticationResult := Some tokens0 |}.

(** No hook bound. *)
Definition services : Services :=
  {| triggers_bound := [];
     postAuthentication_handler := fun _ => None;
     userMigration_handler := fun _ => None;
     tokenGenerator := freshTokens;
     uuid := fun n => "uuid-" +:+ pretty n |}.

(** PostAuthentication bound to a handler that accepts. *)
Definition servicesWithHook : Services :=
  {| triggers_bound := ["PostAuthentication"];
     postAuthentication_handler := fun _ => None;
     userMigration_handler := fun _ => None;
     tokenGenerator := freshTokens;
     uuid := fun n => "uuid-" +:+ pretty n |}.

(** PostAuthentication bound to a handler that rejects. *)
Definition servicesWithFailingHook : Services :=
  {| triggers_bound := ["PostAuthentication"];
     postAuthentication_handler := fun _ => Some (TriggerFailure "rejected");
     userMigration_handler := fun _ => None;
     tokenGenerator := freshTokens;
     uuid := fun n => "uuid-" +:+ pretty n |}.

(** S6: frank is not in the pool; the UserMigration trigger knows him. *)
Definition frank : User := newUser "frank" "secret" CONFIRMED.

Definition servicesWithMigration : Services :=
  {| triggers_bound := ["UserMigration"];
     postAuthentication_handler := fun _ => None;
     userMigration_handler :=
       fun event =>
         if bool_decide (um_username event = Some "frank")
         then Some frank else None;
     tokenGenerator := freshTokens;
     uuid := fun n => "uuid-" +:+ pretty n |}.

(** The scenario's users carry no attributes: their record serializes to
    the empty object. *)
Definition stringifyAttributes (attributes : list AttributeType) : string :=
  "{}".

Definition initiateAuth (flow clientId : string)
    (parameters : gmap string string) : InitiateAuthRequest :=
  {| AuthFlow := flow;
     req_ClientId := clientId;
     AuthParameters := Some parameters;
     ClientMetadata := None |}.

Definition credentials (name password : string) : gmap string string :=
  <[ "USERNAME" := name ]> {[ "PASSWORD" := password ]}.

Definition passwordLogin (clientId name password : string)
  : InitiateAuthRequest :=
  initiateAuth "USER_PASSWORD_AUTH" clientId (credentials name password).

Definition refresh (refreshToken : string) : InitiateAuthRequest :=
  initiateAuth "REFRESH_TOKEN_AUTH" "c1" {[ "REFRESH_TOKEN" := refreshToken ]}.

Definition setSoftwareTokenMfa (name : string)
  : AdminSetUserMFAPreferenceRequest :=
  {| admin_UserPoolId := "us-east-1_S1";
     admin_Username := name;
     SMSMfaSettings := None;
     SoftwareTokenMfaSettings :=
       Some {| mfa_Enabled := Some true; PreferredMfa := Some true |};
     admin_ClientId := None;
     admin_ClientMetadata := None |}.

(** A client id the index still resolves to the first pool, which holds no
    such client. *)
Definition storeWithStaleClient : Store :=
  {| pools := pools store;
     clientIndex := <[ "c9" := "us-east-1_S1" ]> (clientIndex store);
     next_id := 0;
     clock := 1000 |}.

(** A password login that comes with client metadata. *)
Definition passwordLoginWithMetadata (clientId name password : string)
    (metadata : gmap string string) : InitiateAuthRequest :=
  {| AuthFlow := "USER_PASSWORD_AUTH";
     req_ClientId := clientId;
     AuthParameters := Some (credentials name password);
     ClientMetadata := Some metadata |}.

(** A request without AuthParameters. *)
Definition bare (flow clientId : string) : InitiateAuthRequest :=
  {| AuthFlow := flow;
     req_ClientId := clientId;
     AuthParameters := None;
     ClientMetadata := None |}.

End Scenario.

(** ** More on traces *)

(** The calls into the trigger runtime. *)
Definition is_trigger (c : call) : bool :=
  match c with
  | Call (triggers_enabled _)
  | Call (postAuthentication _)
  | Call (userMigration _) => true
  | _ => false
  end.

Definition is_userMigration (c : call) : bool :=
  match c with
  | Call (userMigration _) => true
  | _ => false
  end.

(** Asking whether UserMigration is bound, or invoking it. *)
Definition is_migration (c : call) : bool :=
  match c with
  | Call (triggers_enabled trigger) => String.eqb trigger "UserMigration"
  | Call (userMigration _) => true
  | _ => false
  end.

Definition is_saveUser (c : call) : bool :=
  match c with
  | Call (saveUser _ _) => true
  | _ => false
  end.


(** How many entries of a trace are of a kind. *)
Definition calls (kind : call -> bool) (t : list call) : nat :=
  List.length (List.filter kind t).

(** The preference [AdminSetUserMFAPreference] hands to
    [setUserMFAPreference]: both settings copied field by field, an absent
    one left absent. *)
Definition requestedPreference (req : AdminSetUserMFAPreferenceRequest)
  : UserMFAPreference :=
  {| pref_SMSMfaSettings :=
       match SMSMfaSettings req with
       | Some s =>
           Some {| mfa_Enabled := mfa_Enabled s;
                   PreferredMfa := PreferredMfa s |}
       | None => None
       end;
     pref_SoftwareTokenMfaSettings :=
       match SoftwareTokenMfaSettings req with
       | Some s =>
           Some {| mfa_Enabled := mfa_Enabled s;
                   PreferredMfa := PreferredMfa s |}
       | None => None
       end |}.

(** * Supporting lemmas *)

(** Membership of a call in a trace that is written out. *)
Ltac in_trace :=
  simpl; repeat first [apply list_elem_of_here | apply list_elem_of_further].

(** The same, behind the calls that resolve the pool, the client and the
    user. *)
Ltac in_flow :=
  simpl; do 3 apply list_elem_of_further; apply elem_of_app; right; in_trace.

Section Interpreter.

Context (sv : Services).

Lemma run_bind {A B : Type} (m : prog A) (f : A -> prog B) (st : Store) :
  run sv (bind m f) st =
  match outcome (run sv m st) with
  | Returned a =>
      let r := run sv (f a) (final (run sv m st)) in
      {| outcome := outcome r;
         final := final r;
         trace := trace (run sv m st) ++ trace r |}
  | Thrown e =>
      {| outcome := Thrown e;
         final := final (run sv m st);
         trace := trace (run sv m st) |}
  end.
Proof.
  revert st. induction m as [a|e|X c k IH]; intros st; simpl.
  - by destruct (run sv (f a) st).
  - done.
  - destruct (handle sv c st) as [[x|e] st']; simpl; [|done].
    rewrite IH. by destruct (outcome (run sv (k x) st')).
Qed.

Lemma run_bind_Ret {A : Type} (m : prog A) (st : Store) :
  run sv (bind m Ret) st = run sv m st.
Proof.
  rewrite run_bind. destruct (run sv m st) as [[a|e] st' t]; simpl; [|done].
  by rewrite app_nil_r.
Qed.

Lemma returns_only_all {A : Type} (P : A -> Prop) (m : prog A) :
  (forall a, P a) -> returns_only P m.
Proof. intros HP. induction m; simpl; auto. Qed.

Lemma returns_only_bind {A B : Type} (P : B -> Prop) (m : prog A)
    (f : A -> prog B) :
  returns_only (fun a => returns_only P (f a)) m ->
  returns_only P (bind m f).
Proof. induction m; simpl; auto. Qed.

Lemma returns_only_run {R : Type} (P : R -> Prop) (p : prog R) (st : Store)
    (r : R) :
  returns_only P p -> outcome (run sv p st) = Returned r -> P r.
Proof.
  revert st. induction p as [a|e|X c k IH]; intros st; simpl.
  - intros Ha [= <-]. exact Ha.
  - discriminate.
  - intros Hk. destruct (handle sv c st) as [[x|e] st']; simpl.
    + apply IH, Hk.
    + discriminate.
Qed.

End Interpreter.

(** ** InitiateAuth: dispatch *)

Section Dispatch.

Context (sv : Services) (stringifyAttributes : list AttributeType -> string).
Context (st : Store) (req : InitiateAuthRequest).
Context (userPool : UserPoolService) (userPoolClient : AppClient).
Hypothesis Hpool : poolForClient st (req_ClientId req) = Some userPool.
Hypothesis Hclient : appClient st (req_ClientId req) = Some userPoolClient.

Let resolved {R : Type} (r : Run R) : Run R :=
  logged (Call (getUserPoolForClientId (req_ClientId req)))
    (logged (Call (getAppClient (req_ClientId req))) r).

Lemma InitiateAuth_password :
  AuthFlow req = "USER_PASSWORD_AUTH" ->
  run sv (InitiateAuth stringifyAttributes req) st =
  resolved
    (run sv (userPasswordAuthFlow stringifyAttributes req userPool
               userPoolClient) st).
Proof.
  intros Hflow. unfold InitiateAuth, resolved. simpl.
  rewrite Hpool, Hclient, Hflow. simpl.
  by rewrite run_bind_Ret.
Qed.

Lemma InitiateAuth_refresh :
  AuthFlow req = "REFRESH_TOKEN" \/ AuthFlow req = "REFRESH_TOKEN_AUTH" ->
  run sv (InitiateAuth stringifyAttributes req) st =
  resolved (run sv (refreshTokenAuthFlow req userPool userPoolClient) st).
Proof.
  intros Hflow. unfold InitiateAuth, resolved. simpl.
  rewrite Hpool, Hclient.
  destruct Hflow as [-> | ->]; simpl; by rewrite run_bind_Ret.
Qed.

Lemma InitiateAuth_other :
  AuthFlow req <> "USER_PASSWORD_AUTH" ->
  AuthFlow req <> "REFRESH_TOKEN" ->
  AuthFlow req <> "REFRESH_TOKEN_AUTH" ->
  run sv (InitiateAuth stringifyAttributes req) st =
  resolved
    {| outcome :=
         Thrown (UnsupportedError ("InitAuth with AuthFlow=" ++ AuthFlow req));
       final := st;
       trace := [] |}.
Proof.
  intros H1 H2 H3. unfold InitiateAuth, resolved. simpl.
  rewrite Hpool, Hclient.
  rewrite !bool_decide_eq_false_2 by done. done.
Qed.

End Dispatch.

(** ** The store *)

Section StoreFacts.

Context (st : Store) (userPool : UserPoolService).

Lemma handle_of_pool (userPoolId : string) :
  handle_of st userPoolId = Some userPool ->
  Id (options userPool) = userPoolId /\ is_Some (pools st !! userPoolId).
Proof.
  unfold handle_of. destruct (pools st !! userPoolId) as [p|]; simpl; [|done].
  intros [= <-]. eauto.
Qed.

Lemma poolForClient_pool (clientId : string) :
  poolForClient st clientId = Some userPool ->
  is_Some (pools st !! Id (options userPool)).
Proof.
  unfold poolForClient.
  destruct (clientIndex st !! clientId) as [pid|]; simpl; [|done].
  intros H. apply handle_of_pool in H as [-> H]. done.
Qed.

(** After an upsert the user is found under its name, stamped with the
    time of the write. *)
Lemma lookupUser_putUser (user : User) :
  is_Some (pools st !! Id (options userPool)) ->
  lookupUser (putUser (Id (options userPool)) user st) userPool
    (Some (Username user))
  = Some (touch (clock st) user).
Proof.
  intros [p Hp]. unfold lookupUser, users_of, putUser. simpl.
  rewrite lookup_alter_eq, Hp. simpl. apply lookup_insert_eq.
Qed.

Lemma next_id_putUser (userPoolId : string) (user : User) :
  next_id (putUser userPoolId user st) = next_id st.
Proof. done. Qed.

Lemma groupsOf_putUser (userPoolId : string) (user member : User) :
  groupsOf (putUser userPoolId user st) userPool member
  = groupsOf st userPool member.
Proof.
  unfold groupsOf, putUser. simpl. rewrite lookup_alter.
  case_decide as Hid; [|done]. subst userPoolId.
  by destruct (pools st !! Id (options userPool)).
Qed.

Lemma pool_putUser (userPoolId : string) (user : User) (other : string) :
  is_Some (pools st !! other) ->
  is_Some (pools (putUser userPoolId user st) !! other).
Proof.
  intros [p Hp]. unfold putUser. simpl. rewrite lookup_alter.
  case_decide as Hid; [|by rewrite Hp]. subst. rewrite Hp. simpl. eauto.
Qed.

Lemma next_id_afterResolution (authParameters : gmap string string)
    (user : User) :
  next_id (afterResolution st userPool authParameters user) = next_id st.
Proof. unfold afterResolution. by destruct (lookupUser _ _ _). Qed.

Lemma groupsOf_afterResolution (authParameters : gmap string string)
    (user member : User) :
  groupsOf (afterResolution st userPool authParameters user) userPool member
  = groupsOf st userPool member.
Proof.
  unfold afterResolution. destruct (lookupUser _ _ _); [done|].
  apply groupsOf_putUser.
Qed.

Lemma pool_afterResolution (authParameters : gmap string string)
    (user : User) (other : string) :
  is_Some (pools st !! other) ->
  is_Some (pools (afterResolution st userPool authParameters user) !! other).
Proof.
  unfold afterResolution. destruct (lookupUser _ _ _); [done|].
  apply pool_putUser.
Qed.

Lemma afterResolution_found (authParameters : gmap string string)
    (user : User) :
  lookupUser st userPool (authParameters !! "USERNAME") = Some user ->
  afterResolution st userPool authParameters user = st.
Proof. unfold afterResolution. by intros ->. Qed.

Lemma migrationCalls_quiet (req : InitiateAuthRequest)
    (authParameters : gmap string string) :
  existsb is_generate (migrationCalls st req userPool authParameters) = false
  /\ existsb is_storeRefreshToken
       (migrationCalls st req userPool authParameters) = false.
Proof. unfold migrationCalls. by destruct (lookupUser _ _ _). Qed.

End StoreFacts.

(** ** The password flow, once the user is resolved *)

Section PasswordFlow.

Context (sv : Services) (stringifyAttributes : list AttributeType -> string).
Context (st : Store) (req : InitiateAuthRequest).
Context (userPool : UserPoolService) (userPoolClient : AppClient).
Context (authParameters : gmap string string) (user : User).
Hypothesis Hpool : poolForClient st (req_ClientId req) = Some userPool.
Hypothesis Hclient : appClient st (req_ClientId req) = Some userPoolClient.
Hypothesis Hflow : AuthFlow req = "USER_PASSWORD_AUTH".
Hypothesis Hparams : AuthParameters req = Some authParameters.
Hypothesis Hresolves : resolvesUser sv st req userPool authParameters user.

Let st' : Store := afterResolution st userPool authParameters user.

Let entered {R : Type} (r : Run R) : Run R :=
  {| outcome := outcome r;
     final := final r;
     trace :=
       Call (getUserPoolForClientId (req_ClientId req))
       :: Call (getAppClient (req_ClientId req))
       :: Call (getUserByUsername userPool (authParameters !! "USERNAME"))
       :: (migrationCalls st req userPool authParameters ++ trace r) |}.

(** The lookup, and the migration when the lookup misses, hand [user] to
    the rest of the flow. *)
Lemma resolve_user {R : Type} (k : option User -> prog R) :
  run sv
    (let* found := getUserByUsername userPool (authParameters !! "USERNAME") in
     await* resolved :=
       match found with
       | Some _ => Ret found
       | None =>
           let* migration := triggers_enabled "UserMigration" in
           if migration : bool then
             let* migrated :=
               userMigration (migrationEvent req userPool authParameters) in
             Ret (Some migrated)
           else Ret None
       end in
     k resolved) st
  = {| outcome := outcome (run sv (k (Some user)) st');
       final := final (run sv (k (Some user)) st');
       trace :=
         Call (getUserByUsername userPool (authParameters !! "USERNAME"))
         :: (migrationCalls st req userPool authParameters
             ++ trace (run sv (k (Some user)) st')) |}.
Proof.
  subst st'. unfold afterResolution, migrationCalls. simpl.
  destruct Hresolves as [Hfound | (Hmiss & Hbound & Hmigrated)].
  - rewrite Hfound. simpl. done.
  - rewrite Hmiss. simpl. rewrite (bool_decide_eq_true_2 _ Hbound). simpl.
    rewrite Hmigrated. simpl. unfold migrationEvent. simpl. done.
Qed.

Lemma password_flow_resolved :
  run sv (InitiateAuth stringifyAttributes req) st =
  entered
    (run sv
       (if bool_decide (UserStatus user = RESET_REQUIRED) then
          Throw PasswordResetRequiredError
        else if bool_decide (UserStatus user = FORCE_CHANGE_PASSWORD) then
          newPasswordChallenge stringifyAttributes user
        else if bool_decide
                  (Some (Password user) ≠ authParameters !! "PASSWORD") then
          Throw InvalidPasswordError
        else if bool_decide (UserStatus user = UNCONFIRMED) then
          Throw UserNotConfirmedException
        else if mfaGate userPool user then
          verifyMfaChallenge user req userPool
        else
          let* postAuth := triggers_enabled "PostAuthentication" in
          await* _ :=
            (if postAuth : bool then
               let* _ := postAuthentication (loginEvent req userPool user) in
               Ret tt
             else Ret tt) in
          verifyPasswordChallenge user req userPool userPoolClient)
       st').
Proof.
  rewrite (InitiateAuth_password _ _ _ _ _ _ Hpool Hclient Hflow).
  unfold userPasswordAuthFlow, entered. rewrite Hparams.
  fold (migrationEvent req userPool authParameters).
  fold (loginEvent req userPool user).
  rewrite resolve_user. done.
Qed.

Lemma password_RESET_REQUIRED :
  UserStatus user = RESET_REQUIRED ->
  run sv (InitiateAuth stringifyAttributes req) st =
  entered {| outcome := Thrown PasswordResetRequiredError;
             final := st'; trace := [] |}.
Proof. intros Hstatus. rewrite password_flow_resolved, Hstatus. done. Qed.

Lemma password_FORCE_CHANGE_PASSWORD :
  UserStatus user = FORCE_CHANGE_PASSWORD ->
  run sv (InitiateAuth stringifyAttributes req) st =
  entered (run sv (newPasswordChallenge stringifyAttributes user) st').
Proof. intros Hstatus. rewrite password_flow_resolved, Hstatus. done. Qed.

Lemma password_mismatch :
  UserStatus user <> RESET_REQUIRED ->
  UserStatus user <> FORCE_CHANGE_PASSWORD ->
  authParameters !! "PASSWORD" <> Some (Password user) ->
  run sv (InitiateAuth stringifyAttributes req) st =
  entered {| outcome := Thrown InvalidPasswordError;
             final := st'; trace := [] |}.
Proof.
  intros Hreset Hforce Hpassword. rewrite password_flow_resolved.
  rewrite (bool_decide_eq_false_2 _ Hreset), (bool_decide_eq_false_2 _ Hforce).
  rewrite bool_decide_eq_true_2 by congruence. done.
Qed.

Lemma password_UNCONFIRMED :
  UserStatus user = UNCONFIRMED ->
  authParameters !! "PASSWORD" = Some (Password user) ->
  run sv (InitiateAuth stringifyAttributes req) st =
  entered {| outcome := Thrown UserNotConfirmedException;
             final := st'; trace := [] |}.
Proof.
  intros Hstatus Hpassword. rewrite password_flow_resolved.
  rewrite Hstatus, Hpassword. simpl.
  rewrite bool_decide_eq_false_2 by (intros H; by apply H). done.
Qed.

Lemma password_checked (k : prog InitiateAuthResponse) :
  passesCredentialChecks user (authParameters !! "PASSWORD") ->
  (if bool_decide (UserStatus user = RESET_REQUIRED) then
     Throw PasswordResetRequiredError
   else if bool_decide (UserStatus user = FORCE_CHANGE_PASSWORD) then
     newPasswordChallenge stringifyAttributes user
   else if bool_decide (Some (Password user) ≠ authParameters !! "PASSWORD")
   then Throw InvalidPasswordError
   else if bool_decide (UserStatus user = UNCONFIRMED) then
     Throw UserNotConfirmedException
   else k) = k.
Proof.
  intros (Hreset & Hforce & Hpassword & Hunconfirmed).
  rewrite (bool_decide_eq_false_2 _ Hreset), (bool_decide_eq_false_2 _ Hforce).
  rewrite (bool_decide_eq_false_2 _ Hunconfirmed).
  rewrite bool_decide_eq_false_2; [done|]. intros H. by apply H.
Qed.

Lemma password_mfa :
  passesCredentialChecks user (authParameters !! "PASSWORD") ->
  mfaGate userPool user = true ->
  run sv (InitiateAuth stringifyAttributes req) st =
  entered (run sv (verifyMfaChallenge user req userPool) st').
Proof.
  intros Hchecks Hgate.
  rewrite password_flow_resolved, (password_checked _ Hchecks), Hgate. done.
Qed.

Lemma password_login :
  passesCredentialChecks user (authParameters !! "PASSWORD") ->
  mfaGate userPool user = false ->
  run sv (InitiateAuth stringifyAttributes req) st =
  entered
    (logged (Call (triggers_enabled "PostAuthentication"))
       (if bool_decide ("PostAuthentication" ∈ triggers_bound sv) then
          match postAuthentication_handler sv (loginEvent req userPool user)
          with
          | None =>
              logged (Call (postAuthentication (loginEvent req userPool user)))
                (run sv
                   (verifyPasswordChallenge user req userPool userPoolClient)
                   st')
          | Some e =>
              {| outcome := Thrown e;
                 final := st';
                 trace :=
                   [Call (postAuthentication (loginEvent req userPool user))] |}
          end
        else
          run sv (verifyPasswordChallenge user req userPool userPoolClient)
            st')).
Proof.
  intros Hchecks Hgate.
  rewrite password_flow_resolved, (password_checked _ Hchecks), Hgate. simpl.
  destruct (bool_decide ("PostAuthentication" ∈ triggers_bound sv)); simpl.
  - destruct (postAuthentication_handler sv (loginEvent req userPool user));
      done.
  - done.
Qed.

End PasswordFlow.

(** ** The sub-flows *)

Section SubFlows.

Context (sv : Services) (st : Store) (req : InitiateAuthRequest).
Context (userPool : UserPoolService) (userPoolClient : AppClient).
Context (user : User).

Lemma verifyMfaChallenge_no_settings :
  UserMFASettingList user = None \/ UserMFASettingList user = Some [] ->
  run sv (verifyMfaChallenge user req userPool) st =
  {| outcome := Thrown NotAuthorizedError; final := st; trace := [] |}.
Proof. unfold verifyMfaChallenge. by intros [-> | ->]. Qed.

Lemma verifyMfaChallenge_no_software_token (settings : list string) :
  UserMFASettingList user = Some settings ->
  settings <> [] ->
  "SOFTWARE_TOKEN_MFA" ∉ settings ->
  run sv (verifyMfaChallenge user req userPool) st =
  {| outcome := Thrown (UnsupportedError "MFA challenge without SOFTWARE_TOKEN");
     final := st; trace := [] |}.
Proof.
  intros Hlist Hne Hnotin. unfold verifyMfaChallenge. rewrite Hlist.
  destruct settings as [|s settings]; [done|]. simpl.
  by rewrite bool_decide_eq_false_2.
Qed.

Lemma verifyMfaChallenge_software_token (settings : list string) :
  UserMFASettingList user = Some settings ->
  "SOFTWARE_TOKEN_MFA" ∈ settings ->
  run sv (verifyMfaChallenge user req userPool) st =
  {| outcome :=
       Returned
         {| ChallengeName := Some "SOFTWARE_TOKEN_MFA";
            ChallengeParameters :=
              Some {[ "USER_ID_FOR_SRP" := Username user ]};
            Session := Some (uuid sv (next_id st));
            AuthenticationResult := None |};
     final :=
       draw (putUser (Id (options userPool)) (with_MFACode user "999999") st);
     trace :=
       [Call (saveUser userPool (with_MFACode user "999999")); Call v4] |}.
Proof.
  intros Hlist Hin. unfold verifyMfaChallenge. rewrite Hlist.
  destruct settings as [|s settings]; [by apply elem_of_nil in Hin|]. simpl.
  by rewrite bool_decide_eq_true_2.
Qed.

Lemma verifyMfaChallenge_no_generate :
  existsb is_generate (trace (run sv (verifyMfaChallenge user req userPool) st))
  = false.
Proof.
  unfold verifyMfaChallenge.
  destruct (not_number _); [done|]. by destruct (not_bool _).
Qed.

Lemma verifyPasswordChallenge_tokens (tokens : Tokens) :
  tokenGenerator sv (next_id st) user (groupsOf st userPool user)
    userPoolClient None "Authentication" = inr tokens ->
  run sv (verifyPasswordChallenge user req userPool userPoolClient) st =
  {| outcome :=
       Returned
         {| ChallengeName := Some "PASSWORD_VERIFIER";
            ChallengeParameters := Some ∅;
            Session := None;
            AuthenticationResult := Some tokens |};
     final :=
       putUser (Id (options userPool))
         (with_RefreshToken user (RefreshToken tokens)) (draw st);
     trace :=
       [Call (listUserGroupMembership userPool user);
        Call (generate user (groupsOf st userPool user) userPoolClient None
                "Authentication");
        Call (storeRefreshToken userPool (RefreshToken tokens) user)] |}.
Proof.
  intros Hgen. unfold verifyPasswordChallenge. simpl. by rewrite Hgen.
Qed.

End SubFlows.

(** ** The refresh flow *)

Section RefreshFlow.

Context (sv : Services) (stringifyAttributes : list AttributeType -> string).
Context (st : Store) (req : InitiateAuthRequest).
Context (userPool : UserPoolService) (userPoolClient : AppClient).
Context (authParameters : gmap string string) (refreshToken : string).
Hypothesis Hpool : poolForClient st (req_ClientId req) = Some userPool.
Hypothesis Hclient : appClient st (req_ClientId req) = Some userPoolClient.
Hypothesis Hflow :
  AuthFlow req = "REFRESH_TOKEN" \/ AuthFlow req = "REFRESH_TOKEN_AUTH".
Hypothesis Hparams : AuthParameters req = Some authParameters.
Hypothesis Htoken : authParameters !! "REFRESH_TOKEN" = Some refreshToken.
Hypothesis Hnonempty : refreshToken <> "".

Let looked_up {R : Type} (r : Run R) : Run R :=
  logged (Call (getUserPoolForClientId (req_ClientId req)))
    (logged (Call (getAppClient (req_ClientId req)))
       (logged (Call (getUserByRefreshToken userPool refreshToken)) r)).

Lemma refresh_unknown_token :
  lookupRefreshToken st userPool refreshToken = None ->
  run sv (InitiateAuth stringifyAttributes req) st =
  looked_up {| outcome := Thrown NotAuthorizedError;
               final := st; trace := [] |}.
Proof.
  intros Hunknown.
  rewrite (InitiateAuth_refresh _ _ _ _ _ _ Hpool Hclient Hflow).
  unfold refreshTokenAuthFlow, looked_up. rewrite Hparams, Htoken.
  destruct refreshToken as [|c s]; [done|]. simpl. by rewrite Hunknown.
Qed.

Lemma refresh_known_token (user : User) :
  lookupRefreshToken st userPool refreshToken = Some user ->
  run sv (InitiateAuth stringifyAttributes req) st =
  looked_up
    (logged (Call (listUserGroupMembership userPool user))
       match tokenGenerator sv (next_id st) user (groupsOf st userPool user)
               userPoolClient (ClientMetadata req) "RefreshTokens" with
       | inr tokens =>
           {| outcome :=
                Returned
                  {| ChallengeName := None;
                     Session := Some (uuid sv (S (next_id st)));
                     ChallengeParameters := None;
                     AuthenticationResult := Some tokens |};
              final := draw (draw st);
              trace :=
                [Call (generate user (groupsOf st userPool user)
                         userPoolClient (ClientMetadata req) "RefreshTokens");
                 Call v4] |}
       | inl e =>
           {| outcome := Thrown e;
              final := st;
              trace :=
                [Call (generate user (groupsOf st userPool user)
                         userPoolClient (ClientMetadata req) "RefreshTokens")]
           |}
       end).
Proof.
  intros Hknown.
  rewrite (InitiateAuth_refresh _ _ _ _ _ _ Hpool Hclient Hflow).
  unfold refreshTokenAuthFlow, looked_up. rewrite Hparams, Htoken.
  destruct refreshToken as [|c s]; [done|]. simpl. rewrite Hknown. simpl.
  by destruct (tokenGenerator sv _ _ _ _ _ _).
Qed.

End RefreshFlow.

(** ** Invocations of the PostAuthentication trigger *)

Lemma postAuthentication_events_app (t1 t2 : list call) :
  postAuthentication_events (t1 ++ t2) =
  (postAuthentication_events t1 ++ postAuthentication_events t2)%list.
Proof.
  induction t1 as [|[X c] t1 IH]; simpl; [done|].
  destruct c; simpl; by rewrite ?IH.
Qed.

Section Invocations.

Context (sv : Services) (stringifyAttributes : list AttributeType -> string).

Lemma verifyMfaChallenge_no_postAuthentication
    (user : User) (req : InitiateAuthRequest) (userPool : UserPoolService)
    (st : Store) :
  postAuthentication_events
    (trace (run sv (verifyMfaChallenge user req userPool) st)) = [].
Proof.
  unfold verifyMfaChallenge.
  destruct (not_number _); [done|]. by destruct (not_bool _).
Qed.

Lemma verifyPasswordChallenge_no_postAuthentication
    (user : User) (req : InitiateAuthRequest) (userPool : UserPoolService)
    (userPoolClient : AppClient) (st : Store) :
  postAuthentication_events
    (trace
       (run sv (verifyPasswordChallenge user req userPool userPoolClient) st))
  = [].
Proof.
  unfold verifyPasswordChallenge. simpl.
  by destruct (tokenGenerator sv _ _ _ _ _ _).
Qed.

Lemma refreshTokenAuthFlow_no_postAuthentication
    (req : InitiateAuthRequest) (userPool : UserPoolService)
    (userPoolClient : AppClient) (st : Store) :
  postAuthentication_events
    (trace (run sv (refreshTokenAuthFlow req userPool userPoolClient) st))
  = [].
Proof.
  unfold refreshTokenAuthFlow.
  destruct (AuthParameters req) as [authParameters|]; [|done].
  destruct (authParameters !! "REFRESH_TOKEN") as [[|c refreshToken]|];
    [done| |done].
  simpl. destruct (lookupRefreshToken _ _ _); [|done]. simpl.
  by destruct (tokenGenerator sv _ _ _ _ _ _).
Qed.

Lemma userPasswordAuthFlow_postAuthentication
    (req : InitiateAuthRequest) (userPool : UserPoolService)
    (userPoolClient : AppClient) (st : Store)
    (event : PostAuthenticationEvent) :
  event ∈ postAuthentication_events
            (trace
               (run sv
                  (userPasswordAuthFlow stringifyAttributes req userPool
                     userPoolClient) st)) ->
  "PostAuthentication" ∈ triggers_bound sv
  /\ exists authParameters user,
      AuthParameters req = Some authParameters
      /\ resolvesUser sv st req userPool authParameters user
      /\ passesCredentialChecks user (authParameters !! "PASSWORD")
      /\ mfaGate userPool user = false
      /\ event = loginEvent req userPool user.
Proof.
  unfold userPasswordAuthFlow.
  destruct (AuthParameters req) as [authParameters|] eqn:Hparams;
    [|by intros ?%elem_of_nil].
  simpl. rewrite run_bind.
  match goal with
  | |- context [run sv ?m st] => set (resolution := run sv m st)
  end.
  assert (Hres :
            postAuthentication_events (trace resolution) = []
            /\ forall user,
                outcome resolution = Returned (Some user) ->
                resolvesUser sv st req userPool authParameters user).
  { subst resolution. unfold resolvesUser.
    destruct (lookupUser st userPool (authParameters !! "USERNAME"))
      as [found|] eqn:Huser; simpl.
    - split; [done|]. intros ? [= <-]. by left.
    - case_bool_decide as Hbound; simpl; [|done].
      fold (migrationEvent req userPool authParameters).
      destruct (userMigration_handler sv _) as [migrated|] eqn:Hmigrated;
        simpl; [|done].
      split; [done|]. intros ? [= <-]. by right. }
  destruct Hres as [Hquiet Hresolved].
  destruct (outcome resolution) as [[user|]|e]; simpl;
    rewrite ?postAuthentication_events_app, ?Hquiet; simpl;
    try (by intros ?%elem_of_nil).
  specialize (Hresolved user eq_refl).
  case_bool_decide as Hreset; [by intros ?%elem_of_nil|].
  case_bool_decide as Hforce; [by intros ?%elem_of_nil|].
  case_bool_decide as Hpassword; [by intros ?%elem_of_nil|].
  case_bool_decide as Hunconfirmed; [by intros ?%elem_of_nil|].
  assert (Hchecks : passesCredentialChecks user (authParameters !! "PASSWORD")).
  { by repeat split. }
  destruct (mfaGate userPool user) eqn:Hgate.
  { rewrite verifyMfaChallenge_no_postAuthentication.
    by intros ?%elem_of_nil. }
  simpl. case_bool_decide as Hbound; simpl.
  - fold (loginEvent req userPool user).
    destruct (postAuthentication_handler sv _); simpl.
    + intros ->%list_elem_of_singleton. eauto 10.
    + destruct (tokenGenerator sv _ _ _ _ _ _); simpl;
        intros ->%list_elem_of_singleton; eauto 10.
  - destruct (tokenGenerator sv _ _ _ _ _ _); simpl;
      by intros ?%elem_of_nil.
Qed.
Lemma InitiateAuth_postAuthentication
    (req : InitiateAuthRequest) (st : Store)
    (event : PostAuthenticationEvent) :
  event ∈ postAuthentication_events
            (trace (run sv (InitiateAuth stringifyAttributes req) st)) ->
  "PostAuthentication" ∈ triggers_bound sv
  /\ AuthFlow req = "USER_PASSWORD_AUTH"
  /\ exists userPool authParameters user,
      poolForClient st (req_ClientId req) = Some userPool
      /\ AuthParameters req = Some authParameters
      /\ resolvesUser sv st req userPool authParameters user
      /\ passesCredentialChecks user (authParameters !! "PASSWORD")
      /\ mfaGate userPool user = false
      /\ event = loginEvent req userPool user.
Proof.
  unfold InitiateAuth. simpl.
  destruct (poolForClient st (req_ClientId req)) as [userPool|] eqn:Hpool;
    simpl; [|by intros ?%elem_of_nil].
  destruct (appClient st (req_ClientId req)) as [userPoolClient|];
    simpl; [|by intros ?%elem_of_nil].
  case_bool_decide as Hpassword.
  - rewrite run_bind_Ret.
    intros (Hbound & authParameters & user & H)%
      userPasswordAuthFlow_postAuthentication.
    split; [done|]. split; [done|]. exists userPool, authParameters, user.
    by split.
  - destruct (_ || _); simpl; [|by intros ?%elem_of_nil].
    rewrite run_bind_Ret, refreshTokenAuthFlow_no_postAuthentication.
    by intros ?%elem_of_nil.
Qed.

Lemma AdminSetUserMFAPreference_postAuthentication
    (req : AdminSetUserMFAPreferenceRequest) (st : Store)
    (event : PostAuthenticationEvent) :
  event ∈ postAuthentication_events
            (trace (run sv (AdminSetUserMFAPreference req) st)) ->
  "PostAuthentication" ∈ triggers_bound sv
  /\ exists userPool user preference,
      handle_of st (admin_UserPoolId req) = Some userPool
      /\ lookupUser st userPool (Some (admin_Username req)) = Some user
      /\ trace (run sv (AdminSetUserMFAPreference req) st)
         = [Call (getUserPool (admin_UserPoolId req));
            Call (getUserByUsername userPool (Some (admin_Username req)));
            Call (setUserMFAPreference userPool user preference);
            Call (triggers_enabled "PostAuthentication");
            Call (postAuthentication event)]
      /\ event = adminEvent req userPool user.
Proof.
  unfold AdminSetUserMFAPreference. simpl.
  destruct (handle_of st (admin_UserPoolId req)) as [userPool|] eqn:Hpool;
    simpl; [|by intros ?%elem_of_nil].
  destruct (lookupUser st userPool (Some (admin_Username req)))
    as [user|] eqn:Huser; simpl; [|by intros ?%elem_of_nil].
  case_bool_decide as Hbound; simpl; [|by intros ?%elem_of_nil].
  fold (adminEvent req userPool user).
  destruct (postAuthentication_handler sv _); simpl;
    intros ->%list_elem_of_singleton;
    (split; [done|]); eexists userPool, user, _;
    (split; [done|]); (split; [done|]); (split; done).
Qed.

End Invocations.

(** ** The shapes of a response *)

Lemma InitiateAuth_returns_only
    (stringifyAttributes : list AttributeType -> string)
    (req : InitiateAuthRequest) :
  returns_only (responseOf req) (InitiateAuth stringifyAttributes req).
Proof.
  unfold InitiateAuth. simpl. intros userPool [userPoolClient|]; [|done].
  case_bool_decide as Hpassword.
  - assert (Hmfa : forall user,
               returns_only (responseOf req)
                 (verifyMfaChallenge user req userPool)).
    { intros user. unfold verifyMfaChallenge.
      destruct (not_number _); [done|]. destruct (not_bool _); [done|].
      simpl. intros _ session. left. split; [done|]. right.
      unfold pendingChallenge. simpl. eauto 10. }
    apply returns_only_bind. simpl.
    unfold userPasswordAuthFlow.
    destruct (AuthParameters req) as [authParameters|]; [|done].
    simpl. intros found. apply returns_only_bind, returns_only_all.
    intros [user|]; [|done].
    destruct (bool_decide (UserStatus user = RESET_REQUIRED)); [done|].
    destruct (bool_decide (UserStatus user = FORCE_CHANGE_PASSWORD)).
    { simpl. intros session. left. split; [done|]. right.
      unfold pendingChallenge. simpl. eauto 10. }
    destruct (bool_decide (_ ≠ _)); [done|].
    destruct (bool_decide (UserStatus user = UNCONFIRMED)); [done|].
    destruct (mfaGate userPool user); [apply Hmfa|].
    simpl. intros postAuth. apply returns_only_bind, returns_only_all.
    intros _. simpl. intros groups tokens _. left. split; [done|]. left.
    unfold loginResult. simpl. eauto.
  - destruct (_ || _) eqn:Hrefresh; [|done].
    apply orb_true_iff in Hrefresh.
    rewrite !bool_decide_eq_true in Hrefresh.
    apply returns_only_bind. simpl.
    unfold refreshTokenAuthFlow.
    destruct (AuthParameters req) as [authParameters|]; [|done].
    destruct (authParameters !! "REFRESH_TOKEN") as [[|c refreshToken]|];
      [done| |done].
    simpl. intros [user|]; [|done]. simpl. intros groups tokens session.
    right. split; [done|]. unfold refreshResult. simpl. eauto.
Qed.

(** * The specification, claim by claim *)

(** C1. A USER_PASSWORD_AUTH request for a CONFIRMED, enabled user with the
    matching password, where the MFA gate does not apply (and the
    PostAuthentication trigger, if bound, and the token generator succeed),
    has the token generator called with reason "Authentication", has the
    returned refresh token handed to storeRefreshToken, after which the
    stored user's RefreshTokens contain it, and returns an
    AuthenticationResult holding exactly the generated tokens. *)
Theorem C1_password_login_issues_tokens
    (sv : Services) (stringifyAttributes : list AttributeType -> string)
    (st : Store) (req : InitiateAuthRequest)
    (userPool : UserPoolService) (userPoolClient : AppClient)
    (authParameters : gmap string string) (user : User) (tokens : Tokens) :
  poolForClient st (req_ClientId req) = Some userPool ->
  appClient st (req_ClientId req) = Some userPoolClient ->
  AuthFlow req = "USER_PASSWORD_AUTH" ->
  AuthParameters req = Some authParameters ->
  resolvesUser sv st req userPool authParameters user ->
  UserStatus user = CONFIRMED ->
  Enabled user = true ->
  authParameters !! "PASSWORD" = Some (Password user) ->
  mfaGate userPool user = false ->
  ("PostAuthentication" ∈ triggers_bound sv ->
   postAuthentication_handler sv (loginEvent req userPool user) = None) ->
  tokenGenerator sv (next_id st) user (groupsOf st userPool user)
    userPoolClient None "Authentication" = inr tokens ->
  let r := run sv (InitiateAuth stringifyAttributes req) st in
  (exists response,
      outcome r = Returned response
      /\ AuthenticationResult response = Some tokens)
  /\ Call (generate user (groupsOf st userPool user) userPoolClient None
             "Authentication") ∈ trace r
  /\ Call (storeRefreshToken userPool (RefreshToken tokens) user) ∈ trace r
  /\ (exists stored,
         lookupUser (final r) userPool (Some (Username user)) = Some stored
         /\ RefreshToken tokens ∈ RefreshTokens stored).
Proof.
  intros Hpool Hclient Hflow Hparams Hresolves Hstatus _ Hpassword Hgate
    Htrigger Hgen r.
  assert (Hchecks : passesCredentialChecks user (authParameters !! "PASSWORD")).
  { unfold passesCredentialChecks. rewrite Hstatus. by repeat split. }
  set (st' := afterResolution st userPool authParameters user).
  assert (Hgen' :
            tokenGenerator sv (next_id st') user (groupsOf st' userPool user)
              userPoolClient None "Authentication" = inr tokens).
  { subst st'. by rewrite next_id_afterResolution, groupsOf_afterResolution. }
  assert (Hstored :
            lookupUser
              (putUser (Id (options userPool))
                 (with_RefreshToken user (RefreshToken tokens)) (draw st'))
              userPool (Some (Username user))
            = Some (touch (clock st')
                      (with_RefreshToken user (RefreshToken tokens)))).
  { apply (lookupUser_putUser (draw st') userPool
             (with_RefreshToken user (RefreshToken tokens))).
    apply pool_afterResolution, (poolForClient_pool st userPool _ Hpool). }
  subst r.
  rewrite (password_login _ _ _ _ _ _ _ _ Hpool Hclient Hflow Hparams
             Hresolves Hchecks Hgate).
  fold st'. rewrite (verifyPasswordChallenge_tokens _ _ _ _ _ _ _ Hgen').
  subst st'. rewrite groupsOf_afterResolution.
  assert (Hin : RefreshToken tokens
                ∈ RefreshTokens (with_RefreshToken user (RefreshToken tokens))).
  { simpl. case_bool_decide; [done|].
    apply elem_of_app. right. apply list_elem_of_here. }
  case_bool_decide as Hbound; [rewrite (Htrigger Hbound)|]; simpl.
  - split; [eauto|]. split; [in_flow|]. split; [in_flow|]. eauto.
  - split; [eauto|]. split; [in_flow|]. split; [in_flow|]. eauto.
Qed.

(** C2. In the password flow the checks run in the order of the source:
    RESET_REQUIRED fails with PasswordResetRequired and
    FORCE_CHANGE_PASSWORD answers the NEW_PASSWORD_REQUIRED challenge,
    both whatever the password; then a password mismatch fails with
    InvalidPassword; and an UNCONFIRMED user fails with UserNotConfirmed
    only when the password matched, so an UNCONFIRMED user with a wrong
    password gets InvalidPassword. *)
Theorem C2_password_flow_check_order
    (sv : Services) (stringifyAttributes : list AttributeType -> string)
    (st : Store) (req : InitiateAuthRequest)
    (userPool : UserPoolService) (userPoolClient : AppClient)
    (authParameters : gmap string string) (user : User) :
  poolForClient st (req_ClientId req) = Some userPool ->
  appClient st (req_ClientId req) = Some userPoolClient ->
  AuthFlow req = "USER_PASSWORD_AUTH" ->
  AuthParameters req = Some authParameters ->
  resolvesUser sv st req userPool authParameters user ->
  let result := outcome (run sv (InitiateAuth stringifyAttributes req) st) in
  (UserStatus user = RESET_REQUIRED ->
   result = Thrown PasswordResetRequiredError)
  /\ (UserStatus user = FORCE_CHANGE_PASSWORD ->
      result =
      Returned
        {| ChallengeName := Some "NEW_PASSWORD_REQUIRED";
           ChallengeParameters :=
             Some (<[ "USER_ID_FOR_SRP" := Username user ]>
                   (<[ "requiredAttributes" := "[]" ]>
                   {[ "userAttributes" :=
                        stringifyAttributes (Attributes user) ]}));
           Session := Some (uuid sv (next_id st));
           AuthenticationResult := None |})
  /\ (UserStatus user <> RESET_REQUIRED ->
      UserStatus user <> FORCE_CHANGE_PASSWORD ->
      authParameters !! "PASSWORD" <> Some (Password user) ->
      result = Thrown InvalidPasswordError)
  /\ (UserStatus user = UNCONFIRMED ->
      (authParameters !! "PASSWORD" = Some (Password user) ->
       result = Thrown UserNotConfirmedException)
      /\ (authParameters !! "PASSWORD" <> Some (Password user) ->
          result = Thrown InvalidPasswordError)).
Proof.
  intros Hpool Hclient Hflow Hparams Hresolves result. subst result.
  split; [|split; [|split]].
  - intros Hstatus.
    by rewrite (password_RESET_REQUIRED _ _ _ _ _ _ _ _ Hpool Hclient Hflow
                  Hparams Hresolves Hstatus).
  - intros Hstatus.
    rewrite (password_FORCE_CHANGE_PASSWORD _ _ _ _ _ _ _ _ Hpool Hclient
               Hflow Hparams Hresolves Hstatus).
    simpl. by rewrite next_id_afterResolution.
  - intros Hreset Hforce Hpassword.
    by rewrite (password_mismatch _ _ _ _ _ _ _ _ Hpool Hclient Hflow Hparams
                  Hresolves Hreset Hforce Hpassword).
  - intros Hstatus. split; intros Hpassword.
    + by rewrite (password_UNCONFIRMED _ _ _ _ _ _ _ _ Hpool Hclient Hflow
                    Hparams Hresolves Hstatus Hpassword).
    + rewrite (password_mismatch _ _ _ _ _ _ _ _ Hpool Hclient Hflow Hparams
                 Hresolves); [done | by rewrite Hstatus | by rewrite Hstatus
                             | done].
Qed.

(** C3. On a password login that has passed the credential checks, when the
    pool's MFA configuration is ON, or is OPTIONAL and the user has at least
    one MFAOption, the MFA sub-flow runs and the token generator is not
    called: an absent or empty UserMFASettingList fails with NotAuthorized;
    a list without SOFTWARE_TOKEN_MFA fails with Unsupported; otherwise the
    user is saved with MFACode "999999" and the SOFTWARE_TOKEN_MFA challenge
    is returned with USER_ID_FOR_SRP the Username and a Session drawn from
    the UUID source. *)
Theorem C3_mfa_gate_enters_mfa_sub_flow
    (sv : Services) (stringifyAttributes : list AttributeType -> string)
    (st : Store) (req : InitiateAuthRequest)
    (userPool : UserPoolService) (userPoolClient : AppClient)
    (authParameters : gmap string string) (user : User) :
  poolForClient st (req_ClientId req) = Some userPool ->
  appClient st (req_ClientId req) = Some userPoolClient ->
  AuthFlow req = "USER_PASSWORD_AUTH" ->
  AuthParameters req = Some authParameters ->
  resolvesUser sv st req userPool authParameters user ->
  passesCredentialChecks user (authParameters !! "PASSWORD") ->
  (MfaConfiguration (options userPool) = Some "ON"
   \/ (MfaConfiguration (options userPool) = Some "OPTIONAL"
       /\ exists first rest, MFAOptions user = Some (first :: rest))) ->
  let r := run sv (InitiateAuth stringifyAttributes req) st in
  existsb is_generate (trace r) = false
  /\ (UserMFASettingList user = None \/ UserMFASettingList user = Some [] ->
      outcome r = Thrown NotAuthorizedError)
  /\ (forall settings,
         UserMFASettingList user = Some settings ->
         settings <> [] ->
         "SOFTWARE_TOKEN_MFA" ∉ settings ->
         outcome r =
         Thrown (UnsupportedError "MFA challenge without SOFTWARE_TOKEN"))
  /\ (forall settings,
         UserMFASettingList user = Some settings ->
         "SOFTWARE_TOKEN_MFA" ∈ settings ->
         outcome r =
         Returned
           {| ChallengeName := Some "SOFTWARE_TOKEN_MFA";
              ChallengeParameters :=
                Some {[ "USER_ID_FOR_SRP" := Username user ]};
              Session := Some (uuid sv (next_id st));
              AuthenticationResult := None |}
         /\ Call (saveUser userPool (with_MFACode user "999999")) ∈ trace r
         /\ next_id (final r) = S (next_id st)
         /\ exists stored,
             lookupUser (final r) userPool (Some (Username user))
             = Some stored
             /\ MFACode stored = Some "999999").
Proof.
  intros Hpool Hclient Hflow Hparams Hresolves Hchecks Hmfa r.
  assert (Hgate : mfaGate userPool user = true).
  { unfold mfaGate. apply orb_true_iff.
    destruct Hmfa as [Hon | [Hoptional (o & os & Hoptions)]].
    - right. by apply bool_decide_eq_true_2.
    - left. apply andb_true_iff. split; apply bool_decide_eq_true_2; [done|].
      rewrite Hoptions. simpl. lia. }
  subst r.
  rewrite (password_mfa _ _ _ _ _ _ _ _ Hpool Hclient Hflow Hparams Hresolves
             Hchecks Hgate).
  set (st' := afterResolution st userPool authParameters user).
  split; [|split; [|split]].
  - simpl. rewrite existsb_app, verifyMfaChallenge_no_generate.
    by rewrite (proj1 (migrationCalls_quiet st userPool req authParameters)).
  - intros Hnone. by rewrite verifyMfaChallenge_no_settings.
  - intros settings Hlist Hne Hnotin.
    by rewrite (verifyMfaChallenge_no_software_token _ _ _ _ _ _ Hlist Hne
                  Hnotin).
  - intros settings Hlist Hin.
    rewrite (verifyMfaChallenge_software_token _ _ _ _ _ _ Hlist Hin).
    subst st'. simpl. rewrite next_id_afterResolution.
    split; [done|]. split; [in_flow|]. split; [done|].
    eexists. split.
    + apply (lookupUser_putUser _ userPool (with_MFACode user "999999")).
      apply pool_afterResolution, (poolForClient_pool st userPool _ Hpool).
    + done.
Qed.

(** ** The refresh flow, whatever the token *)

(** X14. The refresh flow: a token that resolves to a user has the
    token generator called with reason "RefreshTokens" and the generated
    tokens returned as AuthenticationResult, nothing is written (the pools,
    and with them every user's RefreshTokens, are as before); a token that
    resolves to no user fails with NotAuthorized. *)
Theorem refresh_writes_nothing
    (sv : Services) (stringifyAttributes : list AttributeType -> string)
    (st : Store) (req : InitiateAuthRequest)
    (userPool : UserPoolService) (userPoolClient : AppClient)
    (authParameters : gmap string string) (refreshToken : string) :
  poolForClient st (req_ClientId req) = Some userPool ->
  appClient st (req_ClientId req) = Some userPoolClient ->
  AuthFlow req = "REFRESH_TOKEN" \/ AuthFlow req = "REFRESH_TOKEN_AUTH" ->
  AuthParameters req = Some authParameters ->
  authParameters !! "REFRESH_TOKEN" = Some refreshToken ->
  refreshToken <> "" ->
  let r := run sv (InitiateAuth stringifyAttributes req) st in
  pools (final r) = pools st
  /\ existsb is_write (trace r) = false
  /\ (lookupRefreshToken st userPool refreshToken = None ->
      outcome r = Thrown NotAuthorizedError)
  /\ (forall user tokens,
         lookupRefreshToken st userPool refreshToken = Some user ->
         tokenGenerator sv (next_id st) user (groupsOf st userPool user)
           userPoolClient (ClientMetadata req) "RefreshTokens" = inr tokens ->
         Call (generate user (groupsOf st userPool user) userPoolClient
                 (ClientMetadata req) "RefreshTokens") ∈ trace r
         /\ exists response,
             outcome r = Returned response
             /\ AuthenticationResult response = Some tokens).
Proof.
  intros Hpool Hclient Hflow Hparams Htoken Hnonempty r. subst r.
  destruct (lookupRefreshToken st userPool refreshToken) as [user|] eqn:Hlook.
  - rewrite (refresh_known_token _ _ _ _ _ _ _ _ Hpool Hclient Hflow Hparams
               Htoken Hnonempty _ Hlook).
    destruct (tokenGenerator sv _ _ _ _ _ _) as [e|tokens] eqn:Hgen; simpl.
    + split; [done|]. split; [done|]. split; [done|].
      intros ? ? [= <-]. by rewrite Hgen.
    + split; [done|]. split; [done|]. split; [done|].
      intros ? ? [= <-]. rewrite Hgen. intros [= <-].
      split; [in_trace|]. eauto.
  - rewrite (refresh_unknown_token _ _ _ _ _ _ _ _ Hpool Hclient Hflow Hparams
               Htoken Hnonempty Hlook).
    simpl. split; [done|]. split; [done|]. split; done.
Qed.

(** X15. The refresh flow's answer does not depend on which of the user's
    refresh tokens came in: the token generator is not given the request's
    token, so two tokens that resolve to the same user get the same
    AuthenticationResult. *)
Theorem refresh_result_ignores_token
    (sv : Services) (stringifyAttributes : list AttributeType -> string)
    (st : Store) (req1 req2 : InitiateAuthRequest)
    (userPool : UserPoolService) (userPoolClient : AppClient)
    (parameters1 parameters2 : gmap string string)
    (token1 token2 : string) (user : User) :
  poolForClient st (req_ClientId req1) = Some userPool ->
  appClient st (req_ClientId req1) = Some userPoolClient ->
  req_ClientId req2 = req_ClientId req1 ->
  ClientMetadata req2 = ClientMetadata req1 ->
  AuthFlow req1 = "REFRESH_TOKEN_AUTH" ->
  AuthFlow req2 = "REFRESH_TOKEN_AUTH" ->
  AuthParameters req1 = Some parameters1 ->
  AuthParameters req2 = Some parameters2 ->
  parameters1 !! "REFRESH_TOKEN" = Some token1 ->
  parameters2 !! "REFRESH_TOKEN" = Some token2 ->
  token1 <> "" -> token2 <> "" ->
  lookupRefreshToken st userPool token1 = Some user ->
  lookupRefreshToken st userPool token2 = Some user ->
  outcome (run sv (InitiateAuth stringifyAttributes req1) st)
  = outcome (run sv (InitiateAuth stringifyAttributes req2) st).
Proof.
  intros Hpool Hclient Hid Hmeta Hflow1 Hflow2 Hp1 Hp2 Ht1 Ht2 Hn1 Hn2 Hl1 Hl2.
  rewrite (refresh_known_token _ _ _ req1 _ _ _ _ Hpool Hclient
             (or_intror Hflow1) Hp1 Ht1 Hn1 _ Hl1).
  rewrite <- Hid in Hpool, Hclient.
  rewrite (refresh_known_token _ _ _ req2 _ _ _ _ Hpool Hclient
             (or_intror Hflow2) Hp2 Ht2 Hn2 _ Hl2).
  rewrite Hmeta. simpl.
  by destruct (tokenGenerator sv _ _ _ _ _ _).
Qed.

(** C5, as the code has it. InitiateAuth dispatches on AuthFlow:
    USER_PASSWORD_AUTH runs the password flow, REFRESH_TOKEN and
    REFRESH_TOKEN_AUTH run the refresh flow, and every other flow,
    ADMIN_USER_PASSWORD_AUTH and USER_SRP_AUTH among them, fails with
    Unsupported("InitAuth with AuthFlow=<flow>") and leaves the store as it
    was. *)
Theorem C5_dispatch_on_AuthFlow
    (sv : Services) (stringifyAttributes : list AttributeType -> string)
    (st : Store) (req : InitiateAuthRequest)
    (userPool : UserPoolService) (userPoolClient : AppClient) :
  poolForClient st (req_ClientId req) = Some userPool ->
  appClient st (req_ClientId req) = Some userPoolClient ->
  let r := run sv (InitiateAuth stringifyAttributes req) st in
  let resolved {R : Type} (flow : Run R) : Run R :=
    logged (Call (getUserPoolForClientId (req_ClientId req)))
      (logged (Call (getAppClient (req_ClientId req))) flow) in
  (AuthFlow req = "USER_PASSWORD_AUTH" ->
   r = resolved
         (run sv (userPasswordAuthFlow stringifyAttributes req userPool
                    userPoolClient) st))
  /\ (AuthFlow req = "REFRESH_TOKEN" \/ AuthFlow req = "REFRESH_TOKEN_AUTH" ->
      r = resolved
            (run sv (refreshTokenAuthFlow req userPool userPoolClient) st))
  /\ (AuthFlow req <> "USER_PASSWORD_AUTH" ->
      AuthFlow req <> "REFRESH_TOKEN" ->
      AuthFlow req <> "REFRESH_TOKEN_AUTH" ->
      outcome r =
      Thrown (UnsupportedError ("InitAuth with AuthFlow=" ++ AuthFlow req))
      /\ final r = st)
  /\ (AuthFlow req = "ADMIN_USER_PASSWORD_AUTH" ->
      outcome r =
      Thrown (UnsupportedError "InitAuth with AuthFlow=ADMIN_USER_PASSWORD_AUTH"))
  /\ (AuthFlow req = "USER_SRP_AUTH" ->
      outcome r =
      Thrown (UnsupportedError "InitAuth with AuthFlow=USER_SRP_AUTH")).
Proof.
  intros Hpool Hclient r resolved. subst r resolved.
  split; [|split; [|split; [|split]]].
  - apply InitiateAuth_password; done.
  - apply InitiateAuth_refresh; done.
  - intros H1 H2 H3.
    by rewrite (InitiateAuth_other _ _ _ _ _ _ Hpool Hclient H1 H2 H3).
  - intros Hflow.
    rewrite (InitiateAuth_other _ _ _ _ _ _ Hpool Hclient);
      rewrite Hflow; done.
  - intros Hflow.
    rewrite (InitiateAuth_other _ _ _ _ _ _ Hpool Hclient);
      rewrite Hflow; done.
Qed.

(** C6, as the code has it. A response of InitiateAuth has one of three
    shapes: the password flow answers either with a pending challenge
    (NEW_PASSWORD_REQUIRED or SOFTWARE_TOKEN_MFA, with ChallengeParameters
    and a Session, and no AuthenticationResult) or with the login result,
    an AuthenticationResult that comes with ChallengeName
    "PASSWORD_VERIFIER", empty ChallengeParameters and no Session; the
    refresh flow answers with an AuthenticationResult and a Session, without
    ChallengeName and ChallengeParameters. *)
Theorem C6_response_shapes
    (sv : Services) (stringifyAttributes : list AttributeType -> string)
    (st : Store) (req : InitiateAuthRequest)
    (response : InitiateAuthResponse) :
  outcome (run sv (InitiateAuth stringifyAttributes req) st)
  = Returned response ->
  (AuthFlow req = "USER_PASSWORD_AUTH"
   /\ (loginResult response \/ pendingChallenge response))
  \/ ((AuthFlow req = "REFRESH_TOKEN" \/ AuthFlow req = "REFRESH_TOKEN_AUTH")
      /\ refreshResult response).
Proof.
  apply (returns_only_run sv (responseOf req)), InitiateAuth_returns_only.
Qed.

(** ** Absent USERNAME or PASSWORD *)

(** X7. With AuthParameters present, the password flow does not look at
    whether PASSWORD is there: for a user that is neither RESET_REQUIRED nor
    FORCE_CHANGE_PASSWORD an absent PASSWORD is a password mismatch. *)
Theorem absent_PASSWORD_is_a_mismatch
    (sv : Services) (stringifyAttributes : list AttributeType -> string)
    (st : Store) (req : InitiateAuthRequest)
    (userPool : UserPoolService) (userPoolClient : AppClient)
    (authParameters : gmap string string) (user : User) :
  poolForClient st (req_ClientId req) = Some userPool ->
  appClient st (req_ClientId req) = Some userPoolClient ->
  AuthFlow req = "USER_PASSWORD_AUTH" ->
  AuthParameters req = Some authParameters ->
  lookupUser st userPool (authParameters !! "USERNAME") = Some user ->
  authParameters !! "PASSWORD" = None ->
  UserStatus user <> RESET_REQUIRED ->
  UserStatus user <> FORCE_CHANGE_PASSWORD ->
  outcome (run sv (InitiateAuth stringifyAttributes req) st)
  = Thrown InvalidPasswordError.
Proof.
  intros Hpool Hclient Hflow Hparams Huser Habsent Hreset Hforce.
  rewrite (password_mismatch _ _ _ _ _ _ _ _ Hpool Hclient Hflow Hparams
             (or_introl Huser) Hreset Hforce); [done|].
  by rewrite Habsent.
Qed.

(** An absent USERNAME is a lookup that finds nobody: without a bound
    UserMigration trigger the flow fails with NotAuthorized. *)
Theorem absent_USERNAME_is_an_unknown_user
    (sv : Services) (stringifyAttributes : list AttributeType -> string)
    (st : Store) (req : InitiateAuthRequest)
    (userPool : UserPoolService) (userPoolClient : AppClient)
    (authParameters : gmap string string) :
  poolForClient st (req_ClientId req) = Some userPool ->
  appClient st (req_ClientId req) = Some userPoolClient ->
  AuthFlow req = "USER_PASSWORD_AUTH" ->
  AuthParameters req = Some authParameters ->
  authParameters !! "USERNAME" = None ->
  "UserMigration" ∉ triggers_bound sv ->
  outcome (run sv (InitiateAuth stringifyAttributes req) st)
  = Thrown NotAuthorizedError.
Proof.
  intros Hpool Hclient Hflow Hparams Habsent Hunbound.
  rewrite (InitiateAuth_password _ _ _ _ _ _ Hpool Hclient Hflow).
  unfold userPasswordAuthFlow. rewrite Hparams, Habsent. simpl.
  unfold lookupUser. simpl.
  by rewrite (bool_decide_eq_false_2 _ Hunbound).
Qed.

(** C8. On a password login that has passed the credential checks with no
    MFA gate, a bound PostAuthentication trigger is invoked with the login's
    event before any call of the token generator; when the trigger fails
    the login fails with the trigger's error, the token generator and
    storeRefreshToken are never called, and the store is as the resolution
    of the user left it: unchanged, for a user the lookup found, whose
    RefreshTokens are therefore as before. *)
Theorem C8_postAuthentication_failure_aborts_login
    (sv : Services) (stringifyAttributes : list AttributeType -> string)
    (st : Store) (req : InitiateAuthRequest)
    (userPool : UserPoolService) (userPoolClient : AppClient)
    (authParameters : gmap string string) (user : User) :
  poolForClient st (req_ClientId req) = Some userPool ->
  appClient st (req_ClientId req) = Some userPoolClient ->
  AuthFlow req = "USER_PASSWORD_AUTH" ->
  AuthParameters req = Some authParameters ->
  resolvesUser sv st req userPool authParameters user ->
  passesCredentialChecks user (authParameters !! "PASSWORD") ->
  mfaGate userPool user = false ->
  "PostAuthentication" ∈ triggers_bound sv ->
  let r := run sv (InitiateAuth stringifyAttributes req) st in
  let event := loginEvent req userPool user in
  (exists before after,
      trace r = (before ++ Call (postAuthentication event) :: after)%list
      /\ existsb is_generate before = false
      /\ (postAuthentication_handler sv event = None ->
          existsb is_generate after = true))
  /\ (forall e,
         postAuthentication_handler sv event = Some e ->
         outcome r = Thrown e
         /\ existsb is_generate (trace r) = false
         /\ existsb is_storeRefreshToken (trace r) = false
         /\ final r = afterResolution st userPool authParameters user
         /\ (lookupUser st userPool (authParameters !! "USERNAME") = Some user ->
             final r = st
             /\ lookupUser (final r) userPool (authParameters !! "USERNAME")
                = Some user)).
Proof.
  intros Hpool Hclient Hflow Hparams Hresolves Hchecks Hgate Hbound r event.
  subst r event.
  rewrite (password_login _ _ _ _ _ _ _ _ Hpool Hclient Hflow Hparams
             Hresolves Hchecks Hgate).
  rewrite (bool_decide_eq_true_2 _ Hbound).
  destruct (migrationCalls_quiet st userPool req authParameters)
    as [Hgenerate Hstore].
  set (before :=
         (Call (getUserPoolForClientId (req_ClientId req))
          :: Call (getAppClient (req_ClientId req))
          :: Call (getUserByUsername userPool (authParameters !! "USERNAME"))
          :: migrationCalls st req userPool authParameters
          ++ [Call (triggers_enabled "PostAuthentication")])%list).
  assert (Hbefore : existsb is_generate before = false).
  { subst before. simpl. by rewrite existsb_app, Hgenerate. }
  destruct (postAuthentication_handler sv (loginEvent req userPool user))
    as [e|]; simpl.
  - split.
    + exists before, []. subst before. simpl.
      split; [by rewrite <- app_assoc|]. by split.
    + intros e' [= <-].
      split; [done|]. rewrite !existsb_app, Hgenerate, Hstore. simpl.
      split; [done|]. split; [done|]. split; [done|].
      intros Hfound. by rewrite (afterResolution_found _ _ _ _ Hfound).
  - split; [|done].
    eexists before, _. subst before. simpl.
    split; [by rewrite <- app_assoc|]. split; [done|]. intros _.
    unfold verifyPasswordChallenge. simpl.
    destruct (tokenGenerator sv _ _ _ _ _ _); done.
Qed.

(** C9, as the code has it. The PostAuthentication trigger is invoked only
    when it is bound, and by two operations: by InitiateAuth on a
    USER_PASSWORD_AUTH login whose user (found by the lookup, or migrated)
    has passed all credential checks with the MFA gate not applying, with
    that login's event; and by AdminSetUserMFAPreference, after it has set
    the MFA preference of an existing user, with an event built from that
    user. *)
Theorem C9_postAuthentication_invocations
    (sv : Services) (stringifyAttributes : list AttributeType -> string)
    (st : Store) (op : Operation) (event : PostAuthenticationEvent) :
  event ∈ postAuthentication_events (trace_of sv stringifyAttributes op st) ->
  "PostAuthentication" ∈ triggers_bound sv
  /\ match op with
     | Op_InitiateAuth req =>
         AuthFlow req = "USER_PASSWORD_AUTH"
         /\ exists userPool authParameters user,
             poolForClient st (req_ClientId req) = Some userPool
             /\ AuthParameters req = Some authParameters
             /\ resolvesUser sv st req userPool authParameters user
             /\ passesCredentialChecks user (authParameters !! "PASSWORD")
             /\ mfaGate userPool user = false
             /\ event = loginEvent req userPool user
     | Op_AdminSetUserMFAPreference req =>
         exists userPool user preference,
           handle_of st (admin_UserPoolId req) = Some userPool
           /\ lookupUser st userPool (Some (admin_Username req)) = Some user
           /\ trace (run sv (AdminSetUserMFAPreference req) st)
              = [Call (getUserPool (admin_UserPoolId req));
                 Call (getUserByUsername userPool
                         (Some (admin_Username req)));
                 Call (setUserMFAPreference userPool user preference);
                 Call (triggers_enabled "PostAuthentication");
                 Call (postAuthentication event)]
           /\ event = adminEvent req userPool user
     end.
Proof.
  destruct op as [req|req]; simpl.
  - apply InitiateAuth_postAuthentication.
  - apply AdminSetUserMFAPreference_postAuthentication.
Qed.

(** C10. An AdminSetUserMFAPreference request whose Username resolves to no
    user of the pool fails with InvalidParameter("User does not exist"),
    which is not UserNotFound, and writes nothing. *)
Theorem C10_admin_unknown_user_is_InvalidParameter
    (sv : Services) (st : Store) (req : AdminSetUserMFAPreferenceRequest)
    (userPool : UserPoolService) :
  handle_of st (admin_UserPoolId req) = Some userPool ->
  lookupUser st userPool (Some (admin_Username req)) = None ->
  let r := run sv (AdminSetUserMFAPreference req) st in
  outcome r = Thrown (InvalidParameterError "User does not exist")
  /\ final r = st
  /\ existsb is_write (trace r) = false.
Proof.
  intros Hpool Huser r. subst r. unfold AdminSetUserMFAPreference. simpl.
  rewrite Hpool. simpl. rewrite Huser. done.
Qed.

(** * Beyond the claims *)

(** Every path of a run, one goal per path. *)
Ltac paths :=
  unfold InitiateAuth, userPasswordAuthFlow, refreshTokenAuthFlow,
    verifyMfaChallenge, verifyPasswordChallenge, newPasswordChallenge,
    AdminSetUserMFAPreference;
  repeat (simpl in *; case_match; simplify_eq/=); simpl in *.

(** ** InitiateAuth: what a failed call leaves behind *)


(** ** InitiateAuth: how often each service is called *)


(** ** InitiateAuth: before the flows *)

(** X1. When the client id resolves to a pool but getAppClient finds no
    such client, InitiateAuth fails with NotAuthorized whatever the flow
    and the parameters: the two facade calls are all it does, and the store
    is as before. *)
Theorem InitiateAuth_unknown_app_client
    (sv : Services) (stringifyAttributes : list AttributeType -> string)
    (st : Store) (req : InitiateAuthRequest) (userPool : UserPoolService) :
  poolForClient st (req_ClientId req) = Some userPool ->
  appClient st (req_ClientId req) = None ->
  run sv (InitiateAuth stringifyAttributes req) st =
  {| outcome := Thrown NotAuthorizedError;
     final := st;
     trace := [Call (getUserPoolForClientId (req_ClientId req));
               Call (getAppClient (req_ClientId req))] |}.
Proof.
  intros Hpool Hclient. unfold InitiateAuth. simpl.
  by rewrite Hpool, Hclient.
Qed.

(** X2. Both flows check first that AuthParameters is there: without it,
    USER_PASSWORD_AUTH, REFRESH_TOKEN and REFRESH_TOKEN_AUTH all fail with
    InvalidParameter("Missing required parameter authParameters") before
    any user is looked up. *)
Theorem missing_AuthParameters_is_InvalidParameter
    (sv : Services) (stringifyAttributes : list AttributeType -> string)
    (st : Store) (req : InitiateAuthRequest)
    (userPool : UserPoolService) (userPoolClient : AppClient) :
  poolForClient st (req_ClientId req) = Some userPool ->
  appClient st (req_ClientId req) = Some userPoolClient ->
  AuthParameters req = None ->
  AuthFlow req = "USER_PASSWORD_AUTH"
  \/ AuthFlow req = "REFRESH_TOKEN" \/ AuthFlow req = "REFRESH_TOKEN_AUTH" ->
  run sv (InitiateAuth stringifyAttributes req) st =
  {| outcome :=
       Thrown
         (InvalidParameterError "Missing required parameter authParameters");
     final := st;
     trace := [Call (getUserPoolForClientId (req_ClientId req));
               Call (getAppClient (req_ClientId req))] |}.
Proof.
  intros Hpool Hclient Habsent [Hflow | Hflow].
  - rewrite (InitiateAuth_password _ _ _ _ _ _ Hpool Hclient Hflow).
    unfold userPasswordAuthFlow. by rewrite Habsent.
  - rewrite (InitiateAuth_refresh _ _ _ _ _ _ Hpool Hclient Hflow).
    unfold refreshTokenAuthFlow. by rewrite Habsent.
Qed.

(** X3. The refresh flow rejects an absent REFRESH_TOKEN, and an empty
    one as well, with InvalidParameter("AuthParameters REFRESH_TOKEN is
    required"), before any lookup by refresh token. *)
Theorem refresh_requires_REFRESH_TOKEN
    (sv : Services) (stringifyAttributes : list AttributeType -> string)
    (st : Store) (req : InitiateAuthRequest)
    (userPool : UserPoolService) (userPoolClient : AppClient)
    (authParameters : gmap string string) :
  poolForClient st (req_ClientId req) = Some userPool ->
  appClient st (req_ClientId req) = Some userPoolClient ->
  AuthFlow req = "REFRESH_TOKEN" \/ AuthFlow req = "REFRESH_TOKEN_AUTH" ->
  AuthParameters req = Some authParameters ->
  authParameters !! "REFRESH_TOKEN" = None
  \/ authParameters !! "REFRESH_TOKEN" = Some "" ->
  run sv (InitiateAuth stringifyAttributes req) st =
  {| outcome :=
       Thrown
         (InvalidParameterError "AuthParameters REFRESH_TOKEN is required");
     final := st;
     trace := [Call (getUserPoolForClientId (req_ClientId req));
               Call (getAppClient (req_ClientId req))] |}.
Proof.
  intros Hpool Hclient Hflow Hparams Htoken.
  rewrite (InitiateAuth_refresh _ _ _ _ _ _ Hpool Hclient Hflow).
  unfold refreshTokenAuthFlow. rewrite Hparams.
  by destruct Htoken as [-> | ->].
Qed.

(** ** The password flow: a user the lookup does not find *)

(** X4. A password login for a name the pool does not know, with no
    UserMigration trigger bound, fails with NotAuthorized: the flow looks the
    user up, asks whether the trigger is bound, and stops; the store is as
    before. *)
Theorem unknown_user_without_migration
    (sv : Services) (stringifyAttributes : list AttributeType -> string)
    (st : Store) (req : InitiateAuthRequest)
    (userPool : UserPoolService) (userPoolClient : AppClient)
    (authParameters : gmap string string) :
  poolForClient st (req_ClientId req) = Some userPool ->
  appClient st (req_ClientId req) = Some userPoolClient ->
  AuthFlow req = "USER_PASSWORD_AUTH" ->
  AuthParameters req = Some authParameters ->
  lookupUser st userPool (authParameters !! "USERNAME") = None ->
  "UserMigration" ∉ triggers_bound sv ->
  run sv (InitiateAuth stringifyAttributes req) st =
  {| outcome := Thrown NotAuthorizedError;
     final := st;
     trace := [Call (getUserPoolForClientId (req_ClientId req));
               Call (getAppClient (req_ClientId req));
               Call (getUserByUsername userPool
                       (authParameters !! "USERNAME"));
               Call (triggers_enabled "UserMigration")] |}.
Proof.
  intros Hpool Hclient Hflow Hparams Hmiss Hunbound.
  rewrite (InitiateAuth_password _ _ _ _ _ _ Hpool Hclient Hflow).
  unfold userPasswordAuthFlow. rewrite Hparams. simpl. rewrite Hmiss. simpl.
  by rewrite (bool_decide_eq_false_2 _ Hunbound).
Qed.

(** X5. With the UserMigration trigger bound, a password login for a name
    the pool does not know invokes the trigger with the request's client
    id, user name and password, the pool's id, no user attributes, no
    client metadata, and the request's ClientMetadata as validation data;
    when the trigger yields no user the login fails with NotAuthorized and
    the store is as before. *)
Theorem unknown_user_with_migration
    (sv : Services) (stringifyAttributes : list AttributeType -> string)
    (st : Store) (req : InitiateAuthRequest)
    (userPool : UserPoolService) (userPoolClient : AppClient)
    (authParameters : gmap string string) :
  poolForClient st (req_ClientId req) = Some userPool ->
  appClient st (req_ClientId req) = Some userPoolClient ->
  AuthFlow req = "USER_PASSWORD_AUTH" ->
  AuthParameters req = Some authParameters ->
  lookupUser st userPool (authParameters !! "USERNAME") = None ->
  "UserMigration" ∈ triggers_bound sv ->
  let r := run sv (InitiateAuth stringifyAttributes req) st in
  let event :=
    {| um_clientId := req_ClientId req;
       um_password := authParameters !! "PASSWORD";
       um_userAttributes := [];
       um_username := authParameters !! "USERNAME";
       um_userPoolId := Id (options userPool);
       um_clientMetadata := None;
       um_validationData := ClientMetadata req |} in
  (exists rest,
      trace r =
      ([Call (getUserPoolForClientId (req_ClientId req));
        Call (getAppClient (req_ClientId req));
        Call (getUserByUsername userPool (authParameters !! "USERNAME"));
        Call (triggers_enabled "UserMigration");
        Call (userMigration event)] ++ rest)%list)
  /\ (userMigration_handler sv event = None ->
      outcome r = Thrown NotAuthorizedError /\ final r = st).
Proof.
  intros Hpool Hclient Hflow Hparams Hmiss Hbound r event. subst r.
  rewrite (InitiateAuth_password _ _ _ _ _ _ Hpool Hclient Hflow).
  unfold userPasswordAuthFlow. rewrite Hparams. simpl. rewrite Hmiss. simpl.
  rewrite (bool_decide_eq_true_2 _ Hbound). simpl. fold event.
  destruct (userMigration_handler sv event) as [migrated|]; simpl.
  - split; [|done].
    match goal with
    | |- context [run sv ?p ?s] => destruct (run sv p s) as [[?|?] ? ?]
    end; simpl; eauto.
  - split; [|done]. by exists [].
Qed.

(** ** The password flow: what it does not look at *)

(** X10. For a user the lookup finds, the password flow never reads the
    request's ClientMetadata: two requests that differ in nothing else run
    the same, call by call, to the same outcome and store (the token
    generator and the PostAuthentication event are given no client
    metadata). *)
Theorem password_login_ignores_ClientMetadata
    (sv : Services) (stringifyAttributes : list AttributeType -> string)
    (st : Store) (req1 req2 : InitiateAuthRequest)
    (userPool : UserPoolService) (userPoolClient : AppClient)
    (authParameters : gmap string string) (user : User) :
  poolForClient st (req_ClientId req1) = Some userPool ->
  appClient st (req_ClientId req1) = Some userPoolClient ->
  AuthFlow req1 = "USER_PASSWORD_AUTH" ->
  AuthFlow req2 = "USER_PASSWORD_AUTH" ->
  req_ClientId req2 = req_ClientId req1 ->
  AuthParameters req1 = Some authParameters ->
  AuthParameters req2 = Some authParameters ->
  lookupUser st userPool (authParameters !! "USERNAME") = Some user ->
  run sv (InitiateAuth stringifyAttributes req1) st
  = run sv (InitiateAuth stringifyAttributes req2) st.
Proof.
  intros Hpool Hclient Hflow1 Hflow2 Hid Hparams1 Hparams2 Huser.
  rewrite (password_flow_resolved _ _ _ req1 _ _ _ _ Hpool Hclient Hflow1
             Hparams1 (or_introl Huser)).
  rewrite <- Hid in Hpool, Hclient.
  rewrite (password_flow_resolved _ _ _ req2 _ _ _ _ Hpool Hclient Hflow2
             Hparams2 (or_introl Huser)).
  unfold migrationCalls, loginEvent. rewrite Huser, Hid. reflexivity.
Qed.

(** X8. A user in status FORCE_CHANGE_PASSWORD is answered with the
    NEW_PASSWORD_REQUIRED challenge whatever the password, an absent one
    included: after the lookup the only call is the one for the session id,
    no token is generated and no user is written. *)
Theorem new_password_challenge_needs_no_password
    (sv : Services) (stringifyAttributes : list AttributeType -> string)
    (st : Store) (req : InitiateAuthRequest)
    (userPool : UserPoolService) (userPoolClient : AppClient)
    (authParameters : gmap string string) (user : User) :
  poolForClient st (req_ClientId req) = Some userPool ->
  appClient st (req_ClientId req) = Some userPoolClient ->
  AuthFlow req = "USER_PASSWORD_AUTH" ->
  AuthParameters req = Some authParameters ->
  lookupUser st userPool (authParameters !! "USERNAME") = Some user ->
  UserStatus user = FORCE_CHANGE_PASSWORD ->
  let r := run sv (InitiateAuth stringifyAttributes req) st in
  (exists response,
      outcome r = Returned response
      /\ ChallengeName response = Some "NEW_PASSWORD_REQUIRED"
      /\ AuthenticationResult response = None)
  /\ trace r =
     [Call (getUserPoolForClientId (req_ClientId req));
      Call (getAppClient (req_ClientId req));
      Call (getUserByUsername userPool (authParameters !! "USERNAME"));
      Call v4]
  /\ pools (final r) = pools st.
Proof.
  intros Hpool Hclient Hflow Hparams Huser Hstatus r. subst r.
  rewrite (password_FORCE_CHANGE_PASSWORD _ _ _ _ _ _ _ _ Hpool Hclient Hflow
             Hparams (or_introl Huser) Hstatus).
  rewrite (afterResolution_found _ _ _ _ Huser).
  unfold migrationCalls. rewrite Huser. simpl. eauto 10.
Qed.

(** X9. When the pool's MfaConfiguration is not ON, and is not OPTIONAL
    for a user with MFA options, a login that passes the credential checks
    never enters the MFA sub-flow: saveUser is not called (no MFA code is
    written) and a response, if there is one, is the login result with its
    tokens. *)
Theorem no_challenge_without_the_MFA_gate
    (sv : Services) (stringifyAttributes : list AttributeType -> string)
    (st : Store) (req : InitiateAuthRequest)
    (userPool : UserPoolService) (userPoolClient : AppClient)
    (authParameters : gmap string string) (user : User) :
  poolForClient st (req_ClientId req) = Some userPool ->
  appClient st (req_ClientId req) = Some userPoolClient ->
  AuthFlow req = "USER_PASSWORD_AUTH" ->
  AuthParameters req = Some authParameters ->
  resolvesUser sv st req userPool authParameters user ->
  passesCredentialChecks user (authParameters !! "PASSWORD") ->
  MfaConfiguration (options userPool) <> Some "ON" ->
  (MfaConfiguration (options userPool) = Some "OPTIONAL" ->
   MFAOptions user = None \/ MFAOptions user = Some []) ->
  let r := run sv (InitiateAuth stringifyAttributes req) st in
  existsb is_saveUser (trace r) = false
  /\ (forall response, outcome r = Returned response -> loginResult response).
Proof.
  intros Hpool Hclient Hflow Hparams Hresolves Hchecks Hon Hoptional r.
  assert (Hgate : mfaGate userPool user = false).
  { unfold mfaGate. rewrite (bool_decide_eq_false_2 _ Hon), orb_false_r.
    case_bool_decide as Hopt; [|done].
    by destruct (Hoptional Hopt) as [-> | ->]. }
  subst r.
  rewrite (password_login _ _ _ _ _ _ _ _ Hpool Hclient Hflow Hparams
             Hresolves Hchecks Hgate).
  assert (Hquiet :
            existsb is_saveUser (migrationCalls st req userPool authParameters)
            = false).
  { unfold migrationCalls. by destruct (lookupUser _ _ _). }
  unfold verifyPasswordChallenge. simpl.
  destruct (bool_decide _);
    [destruct (postAuthentication_handler sv _)|];
    simpl; try destruct (tokenGenerator sv _ _ _ _ _ _); simpl;
    rewrite existsb_app, Hquiet; simpl.
  all: split; [done|]; intros response [= <-] || intros response [=].
  all: unfold loginResult; simpl; eauto.
Qed.

(** ** Who talks to the trigger runtime *)

(** X11. Only the password flow talks to the trigger runtime: a call of
    InitiateAuth that asks whether a trigger is bound, or invokes one, is a
    USER_PASSWORD_AUTH request with AuthParameters; the refresh flow and
    the unsupported flows never do. *)
Theorem triggers_only_in_the_password_flow
    (sv : Services) (stringifyAttributes : list AttributeType -> string)
    (st : Store) (req : InitiateAuthRequest) :
  existsb is_trigger
    (trace (run sv (InitiateAuth stringifyAttributes req) st)) = true ->
  AuthFlow req = "USER_PASSWORD_AUTH" /\ is_Some (AuthParameters req).
Proof.
  paths; intros; simplify_eq/=.
  all: match goal with
       | H : bool_decide (AuthFlow _ = "USER_PASSWORD_AUTH") = true |- _ =>
           apply bool_decide_eq_true in H
       end; eauto.
Qed.

(** X6. The UserMigration trigger is consulted only after the lookup by
    USERNAME has found nobody, and invoked only when it is bound. *)
Theorem migration_only_after_a_miss
    (sv : Services) (stringifyAttributes : list AttributeType -> string)
    (st : Store) (req : InitiateAuthRequest) :
  let r := run sv (InitiateAuth stringifyAttributes req) st in
  (existsb is_migration (trace r) = true ->
   exists userPool authParameters,
     poolForClient st (req_ClientId req) = Some userPool
     /\ AuthParameters req = Some authParameters
     /\ lookupUser st userPool (authParameters !! "USERNAME") = None)
  /\ (existsb is_userMigration (trace r) = true ->
      "UserMigration" ∈ triggers_bound sv).
Proof.
  intros r. subst r. paths; split; intros; simplify_eq/=; eauto.
  all: match goal with
       | H : bool_decide (_ ∈ triggers_bound _) = true |- _ =>
           by apply bool_decide_eq_true in H
       end.
Qed.

(** ** AdminSetUserMFAPreference, for a user of the pool *)

(** X17. For a user of the pool, with the PostAuthentication trigger
    unbound or accepting, AdminSetUserMFAPreference returns the empty
    object after exactly one write: setUserMFAPreference for that user with
    the request's two settings, an absent setting passed on as absent; no
    token is generated. *)
Theorem AdminSetUserMFAPreference_sets_the_preference
    (sv : Services) (st : Store) (req : AdminSetUserMFAPreferenceRequest)
    (userPool : UserPoolService) (user : User) :
  handle_of st (admin_UserPoolId req) = Some userPool ->
  lookupUser st userPool (Some (admin_Username req)) = Some user ->
  ("PostAuthentication" ∈ triggers_bound sv ->
   postAuthentication_handler sv (adminEvent req userPool user) = None) ->
  let r := run sv (AdminSetUserMFAPreference req) st in
  outcome r = Returned EmptyObject
  /\ calls is_write (trace r) = 1
  /\ Call (setUserMFAPreference userPool user
             {| pref_SMSMfaSettings := SMSMfaSettings req;
                pref_SoftwareTokenMfaSettings :=
                  SoftwareTokenMfaSettings req |}) ∈ trace r
  /\ existsb is_generate (trace r) = false.
Proof.
  intros Hpool Huser Htrigger r. subst r.
  unfold AdminSetUserMFAPreference. simpl. rewrite Hpool. simpl.
  rewrite Huser. simpl.
  assert (Hsms :
            match SMSMfaSettings req with
            | Some s =>
                Some {| mfa_Enabled := mfa_Enabled s;
                        PreferredMfa := PreferredMfa s |}
            | None => None
            end = SMSMfaSettings req) by by destruct (SMSMfaSettings req) as [[]|].
  assert (Hsoftware :
            match SoftwareTokenMfaSettings req with
            | Some s =>
                Some {| mfa_Enabled := mfa_Enabled s;
                        PreferredMfa := PreferredMfa s |}
            | None => None
            end = SoftwareTokenMfaSettings req)
    by by destruct (SoftwareTokenMfaSettings req) as [[]|].
  rewrite Hsms, Hsoftware.
  case_bool_decide as Hbound; simpl.
  - fold (adminEvent req userPool user). rewrite (Htrigger Hbound). simpl.
    split; [done|]. split; [done|]. split; [in_trace|done].
  - split; [done|]. split; [done|]. split; [in_trace|done].
Qed.

(** X18. The preference is written before the trigger runs: when the
    bound PostAuthentication trigger fails, AdminSetUserMFAPreference
    fails with the trigger's error, and the user stored in the pool
    already has the new preference. *)
Theorem AdminSetUserMFAPreference_fails_after_the_write
    (sv : Services) (st : Store) (req : AdminSetUserMFAPreferenceRequest)
    (userPool : UserPoolService) (user : User) (e : Error) :
  handle_of st (admin_UserPoolId req) = Some userPool ->
  lookupUser st userPool (Some (admin_Username req)) = Some user ->
  "PostAuthentication" ∈ triggers_bound sv ->
  postAuthentication_handler sv (adminEvent req userPool user) = Some e ->
  let r := run sv (AdminSetUserMFAPreference req) st in
  outcome r = Thrown e
  /\ trace r =
     [Call (getUserPool (admin_UserPoolId req));
      Call (getUserByUsername userPool (Some (admin_Username req)));
      Call (setUserMFAPreference userPool user (requestedPreference req));
      Call (triggers_enabled "PostAuthentication");
      Call (postAuthentication (adminEvent req userPool user))]
  /\ lookupUser (final r) userPool (Some (Username user))
     = Some (touch (clock st)
               (with_MFAPreference user (requestedPreference req))).
Proof.
  intros Hpool Huser Hbound Hfails r. subst r.
  unfold AdminSetUserMFAPreference. simpl. rewrite Hpool. simpl.
  rewrite Huser. simpl. rewrite (bool_decide_eq_true_2 _ Hbound). simpl.
  fold (adminEvent req userPool user). rewrite Hfails. simpl.
  split; [done|]. split; [done|].
  apply handle_of_pool in Hpool as [Hid Hsome]. rewrite <- Hid in Hsome.
  exact (lookupUser_putUser st userPool
           (with_MFAPreference user (requestedPreference req)) Hsome).
Qed.

(** ** A login followed by a refresh *)

Section Upserts.

Context (st : Store) (userPoolId : string) (user : User).

Lemma handle_of_putUser (other : string) :
  handle_of (putUser userPoolId user st) other = handle_of st other.
Proof.
  unfold handle_of, putUser. simpl. rewrite lookup_alter.
  case_decide as Hid; [|done]. subst other.
  by destruct (pools st !! userPoolId).
Qed.

Lemma poolForClient_putUser (clientId : string) :
  poolForClient (putUser userPoolId user st) clientId
  = poolForClient st clientId.
Proof.
  unfold poolForClient. simpl.
  destruct (clientIndex st !! clientId) as [other|]; simpl; [|done].
  apply handle_of_putUser.
Qed.

Lemma appClient_putUser (clientId : string) :
  appClient (putUser userPoolId user st) clientId = appClient st clientId.
Proof.
  unfold appClient, putUser. simpl.
  destruct (clientIndex st !! clientId) as [other|]; simpl; [|done].
  rewrite lookup_alter. case_decide as Hid; [|done]. subst other.
  by destruct (pools st !! userPoolId).
Qed.

(** A token of the user just written resolves to a user. *)
Lemma lookupRefreshToken_putUser (userPool : UserPoolService)
    (refreshToken : string) :
  Id (options userPool) = userPoolId ->
  is_Some (pools st !! userPoolId) ->
  refreshToken ∈ RefreshTokens user ->
  is_Some (lookupRefreshToken (putUser userPoolId user st) userPool
             refreshToken).
Proof.
  intros Hid [p Hp] Hin. unfold lookupRefreshToken, users_of, putUser. simpl.
  rewrite Hid, lookup_alter_eq, Hp. simpl.
  destruct (List.find _ _) as [kv|] eqn:Hfind; simpl; [eauto|].
  assert (Hmiss :
            bool_decide
              (refreshToken
               ∈ RefreshTokens
                   (lowercase (Username user), touch (clock st) user).2)
            = false).
  { apply (List.find_none _ _ Hfind).
    apply list_elem_of_In, elem_of_map_to_list, lookup_insert_eq. }
  simpl in Hmiss. by rewrite (bool_decide_eq_true_2 _ Hin) in Hmiss.
Qed.

End Upserts.

Lemma poolForClient_draw (st : Store) (clientId : string) :
  poolForClient (draw st) clientId = poolForClient st clientId.
Proof. done. Qed.

Lemma appClient_draw (st : Store) (clientId : string) :
  appClient (draw st) clientId = appClient st clientId.
Proof. done. Qed.

(** Where a password login that returns tokens leaves the store: the user
    it resolved, holding the returned refresh token, written to the store
    that the resolution left. *)
Lemma login_final
    (sv : Services) (stringifyAttributes : list AttributeType -> string)
    (st : Store) (req : InitiateAuthRequest)
    (response : InitiateAuthResponse) (tokens : Tokens) :
  AuthFlow req = "USER_PASSWORD_AUTH" ->
  outcome (run sv (InitiateAuth stringifyAttributes req) st)
  = Returned response ->
  AuthenticationResult response = Some tokens ->
  exists userPool user written,
    poolForClient st (req_ClientId req) = Some userPool
    /\ final (run sv (InitiateAuth stringifyAttributes req) st)
       = putUser (Id (options userPool))
           (with_RefreshToken user (RefreshToken tokens)) (draw written)
    /\ (written = st
        \/ exists migrated,
            written = putUser (Id (options userPool)) migrated st).
Proof.
  intros Hflow. paths; intros; simplify_eq/=; eauto 10.
  by rewrite (bool_decide_eq_true_2 _ Hflow) in *.
Qed.

(** X16. Login, then refresh: the refresh token returned by a password
    login is one the pool resolves to a user in the store the login left,
    so a REFRESH_TOKEN_AUTH request with it, for the same client, gets as
    far as the token generator instead of failing with NotAuthorized. *)
Theorem login_token_can_be_refreshed
    (sv : Services) (stringifyAttributes : list AttributeType -> string)
    (st : Store) (req : InitiateAuthRequest)
    (userPool : UserPoolService)
    (response : InitiateAuthResponse) (tokens : Tokens) :
  poolForClient st (req_ClientId req) = Some userPool ->
  AuthFlow req = "USER_PASSWORD_AUTH" ->
  outcome (run sv (InitiateAuth stringifyAttributes req) st)
  = Returned response ->
  AuthenticationResult response = Some tokens ->
  RefreshToken tokens <> "" ->
  let st' := final (run sv (InitiateAuth stringifyAttributes req) st) in
  let again :=
    {| AuthFlow := "REFRESH_TOKEN_AUTH";
       req_ClientId := req_ClientId req;
       AuthParameters := Some {[ "REFRESH_TOKEN" := RefreshToken tokens ]};
       ClientMetadata := None |} in
  is_Some (lookupRefreshToken st' userPool (RefreshToken tokens))
  /\ existsb is_generate
       (trace (run sv (InitiateAuth stringifyAttributes again) st'))
     = true.
Proof.
  intros Hpool Hflow Hreturned Hresult Hnonempty st' again.
  destruct (appClient st (req_ClientId req)) as [userPoolClient|] eqn:Hclient;
    [|unfold InitiateAuth in Hreturned; simpl in Hreturned;
      by rewrite Hpool, Hclient in Hreturned].
  destruct (login_final _ _ _ _ _ _ Hflow Hreturned Hresult)
    as (userPool' & user & written & Hpool' & Hfinal & Hwritten).
  rewrite Hpool in Hpool'. injection Hpool' as <-.
  assert (Hsome : is_Some (pools written !! Id (options userPool))).
  { pose proof (poolForClient_pool _ _ _ Hpool) as Hsome.
    destruct Hwritten as [-> | [migrated ->]]; [done|].
    by apply pool_putUser. }
  assert (Hsame :
            poolForClient st' (req_ClientId req) = Some userPool
            /\ appClient st' (req_ClientId req) = Some userPoolClient).
  { subst st'.
    rewrite Hfinal, poolForClient_putUser, appClient_putUser,
      poolForClient_draw, appClient_draw.
    destruct Hwritten as [-> | [migrated ->]]; [done|].
    by rewrite poolForClient_putUser, appClient_putUser. }
  destruct Hsame as [Hpool' Hclient'].
  assert (Hresolves :
            is_Some (lookupRefreshToken st' userPool (RefreshToken tokens))).
  { subst st'. rewrite Hfinal.
    apply lookupRefreshToken_putUser; [done | done |].
    simpl. case_bool_decide; [done|].
    apply elem_of_app. right. apply list_elem_of_here. }
  split; [done|]. destruct Hresolves as [owner Howner].
  rewrite (refresh_known_token sv stringifyAttributes st' again userPool
             userPoolClient {[ "REFRESH_TOKEN" := RefreshToken tokens ]}
             (RefreshToken tokens) Hpool' Hclient' (or_intror eq_refl)
             eq_refl (lookup_singleton_eq _ _) Hnonempty owner Howner).
  simpl. by destruct (tokenGenerator sv _ _ _ _ _ _).
Qed.

(** ** scripts/dockerBuildPush.sh *)

Section DockerBuildPushFacts.

Import DockerBuildPush.

Context (glob : string -> list string) (docker : list string -> nat).

Lemma plain_app (a b : string) : plain (a +:+ b) = plain a && plain b.
Proof.
  induction a as [|c a IH]; simpl; [done|].
  rewrite IH. by rewrite !andb_assoc.
Qed.

Lemma dots_to_spaces_app (a b : string) :
  dots_to_spaces (a +:+ b) = dots_to_spaces a +:+ dots_to_spaces b.
Proof. induction a as [|c a IH]; simpl; [done|]. by rewrite IH. Qed.

Lemma dots_to_spaces_dotless (s : string) :
  dotless s = true -> dots_to_spaces s = s.
Proof.
  induction s as [|c s IH]; simpl; [done|].
  intros [Hc Hs]%andb_true_iff. rewrite (IH Hs).
  by destruct (bool_decide (c = "."%char)).
Qed.

Lemma scan_plain_prefix (m s : string) :
  plain m = true ->
  scan (m +:+ s) = (m +:+ (scan s).1, (scan s).2).
Proof.
  induction m as [|c m IH]; simpl; [intros _; apply surjective_pairing|].
  intros [Hc Hm]%andb_true_iff. rewrite (IH Hm). simpl.
  by destruct (is_ifs c).
Qed.

Lemma append_empty (w : string) : w +:+ EmptyString = w.
Proof.
  induction w as [|c w IH]; [done|].
  change (String c (w +:+ EmptyString) = String c w). by rewrite IH.
Qed.

Lemma split_plain (w : string) :
  plain w = true -> w <> EmptyString -> split w = [w].
Proof.
  intros Hplain Hne.
  pose proof (scan_plain_prefix w EmptyString Hplain) as Hscan.
  simpl in Hscan. rewrite !append_empty in Hscan.
  unfold split. rewrite Hscan. by rewrite bool_decide_eq_false_2.
Qed.

Lemma unquoted_plain (w : string) :
  leaves_plain_words glob ->
  plain w = true -> w <> EmptyString -> unquoted glob w = [w].
Proof.
  intros Hglob Hplain Hne. unfold unquoted.
  rewrite (split_plain w Hplain Hne). simpl.
  by rewrite (Hglob w Hplain), app_nil_r.
Qed.

Lemma split_after_space (s : string) : split (String " " s) = split s.
Proof. unfold split. simpl. by destruct (scan s). Qed.

(** A dot in front of the version does not count: the major version is
    that of what follows. *)
Lemma major_version_skips_a_leading_dot (version : string) :
  major_version glob (String "." version) = major_version glob version.
Proof.
  unfold major_version, unquoted. simpl. by rewrite split_after_space.
Qed.

(** X20. A version made of dots only passes the script's check for a
    missing version but has no major version: docker is run with the
    second tag being the bare "idzingirai/cognito-local:-latest". *)
Theorem major_version_of_dots (n : nat) (others : list string) :
  leaves_plain_words glob ->
  0 < n ->
  let tagged :=
    ["buildx"; "build";
     "--platform"; "linux/amd64,linux/arm64";
     "--tag"; "idzingirai/cognito-local:latest";
     "--tag"; "idzingirai/cognito-local:-latest";
     "--tag"; "idzingirai/cognito-local:" +:+ dots n;
     "--push"; "."] in
  major_version glob (dots n) = EmptyString
  /\ dockerBuildPush glob docker (dots n :: others) =
     {| exit_status := docker tagged;
        stdout := if bool_decide (docker tagged = 0) then [published] else [];
        stderr := [];
        docker_runs := [tagged] |}.
Proof.
  intros Hglob Hn tagged.
  assert (Hmajor : major_version glob (dots n) = EmptyString).
  { clear Hn tagged. induction n as [|n IH]; [done|].
    simpl. by rewrite major_version_skips_a_leading_dot. }
  split; [done|].
  assert (Hplain : plain (dots n) = true) by (clear; by induction n).
  assert (Hcommand : command glob (dots n) = tagged).
  { unfold command. rewrite Hmajor.
    rewrite (unquoted_plain ("idzingirai/cognito-local:" +:+ "" +:+ "-latest"))
      by done.
    by rewrite (unquoted_plain ("idzingirai/cognito-local:" +:+ dots n));
      [| done | by rewrite plain_app, Hplain | done]. }
  unfold dockerBuildPush. simpl.
  rewrite bool_decide_eq_false_2 by (destruct n; [lia | done]).
  rewrite Hcommand. case_bool_decide as Hstatus; [by rewrite Hstatus | done].
Qed.

(** X19. For a version that the shell leaves alone and that starts with a
    non-empty part before its first dot (or has no dot at all), the major
    version is that part, and the script runs docker once, with the tags
    latest, <major>-latest and <version>; its exit status is docker's, the
    publication line is printed exactly when docker succeeds, and further
    arguments are ignored. *)
Theorem tags_of_a_version (version major rest : string)
    (others : list string) :
  leaves_plain_words glob ->
  plain version = true ->
  version = major +:+ rest ->
  major <> EmptyString ->
  dotless major = true ->
  rest = EmptyString \/ (exists tail, rest = String "." tail) ->
  let tagged :=
    ["buildx"; "build";
     "--platform"; "linux/amd64,linux/arm64";
     "--tag"; "idzingirai/cognito-local:latest";
     "--tag"; "idzingirai/cognito-local:" +:+ major +:+ "-latest";
     "--tag"; "idzingirai/cognito-local:" +:+ version;
     "--push"; "."] in
  major_version glob version = major
  /\ dockerBuildPush glob docker (version :: others) =
     {| exit_status := docker tagged;
        stdout := if bool_decide (docker tagged = 0) then [published] else [];
        stderr := [];
        docker_runs := [tagged] |}.
Proof.
  intros Hglob Hplain -> Hne Hdotless Hrest tagged.
  pose proof Hplain as Hparts. rewrite plain_app in Hparts.
  apply andb_true_iff in Hparts as [Hmajor Hr].
  assert (H1 : major_version glob (major +:+ rest) = major).
  { unfold major_version, unquoted, split.
    rewrite dots_to_spaces_app, (dots_to_spaces_dotless major Hdotless).
    rewrite (scan_plain_prefix major _ Hmajor).
    assert (Hhead : (scan (dots_to_spaces rest)).1 = EmptyString).
    { destruct Hrest as [-> | [tail ->]]; [done|]. simpl.
      by destruct (scan (dots_to_spaces tail)). }
    rewrite Hhead.
    rewrite append_empty.
    rewrite bool_decide_eq_false_2 by done. simpl.
    by rewrite (Hglob major Hmajor). }
  assert (Hcommand : command glob (major +:+ rest) = tagged).
  { unfold command. rewrite H1.
    rewrite (unquoted_plain
               ("idzingirai/cognito-local:" +:+ major +:+ "-latest"));
      [| done | by rewrite !plain_app, Hmajor | done].
    by rewrite (unquoted_plain
                  ("idzingirai/cognito-local:" +:+ major +:+ rest));
      [| done | by rewrite !plain_app, Hmajor, Hr | done]. }
  split; [done|]. unfold dockerBuildPush. simpl.
  rewrite bool_decide_eq_false_2 by by destruct major.
  rewrite Hcommand. case_bool_decide as Hstatus; [by rewrite Hstatus | done].
Qed.

End DockerBuildPushFacts.

(** * On the scenario pool *)

Section OnTheScenario.

Import Scenario.

(** S1: alice logs in with her password on the pool without MFA. *)
Lemma C1_witness :
  let r :=
    run services
      (InitiateAuth stringifyAttributes (passwordLogin "c1" "alice" "p@ss"))
      store in
  (exists response,
      outcome r = Returned response
      /\ AuthenticationResult response = Some tokens0)
  /\ Call (generate alice ["admins"] c1 None "Authentication") ∈ trace r
  /\ Call (storeRefreshToken userPool1 "refresh-0" alice) ∈ trace r
  /\ (exists stored,
         lookupUser (final r) userPool1 (Some "alice") = Some stored
         /\ "refresh-0" ∈ RefreshTokens stored).
Proof.
  apply (C1_password_login_issues_tokens services stringifyAttributes store
           (passwordLogin "c1" "alice" "p@ss") userPool1 c1
           (credentials "alice" "p@ss") alice tokens0);
    first [left; vm_compute; reflexivity | vm_compute; reflexivity].
Defined.

(** S6: frank is migrated on his first login, gets his tokens and is in
    the pool afterwards, holding the refresh token. *)
Example S6_user_migration :
  let r :=
    run servicesWithMigration
      (InitiateAuth stringifyAttributes (passwordLogin "c1" "frank" "secret"))
      store in
  lookupUser store userPool1 (Some "frank") = None
  /\ outcome r = Returned loginResponse
  /\ (RefreshTokens <$> lookupUser (final r) userPool1 (Some "frank"))
     = Some ["refresh-0"].
Proof. vm_compute. by repeat split. Qed.

(** bob is UNCONFIRMED and sends a wrong password: InvalidPassword. *)
Lemma C2_witness :
  outcome
    (run services
       (InitiateAuth stringifyAttributes (passwordLogin "c1" "bob" "guess"))
       store)
  = Thrown InvalidPasswordError.
Proof.
  refine (proj2 (proj2 (proj2 (proj2
            (C2_password_flow_check_order services stringifyAttributes store
               (passwordLogin "c1" "bob" "guess") userPool1 c1
               (credentials "bob" "guess") bob _ _ _ _ _))) _) _);
    first [ left; vm_compute; reflexivity
          | vm_compute; first [reflexivity | discriminate] ].
Defined.

(** S2: erin logs in on the pool with MFA on. *)
Lemma C3_witness :
  let r :=
    run services
      (InitiateAuth stringifyAttributes (passwordLogin "c2" "erin" "s3cret"))
      store in
  outcome r =
  Returned
    {| ChallengeName := Some "SOFTWARE_TOKEN_MFA";
       ChallengeParameters := Some {[ "USER_ID_FOR_SRP" := "erin" ]};
       Session := Some "uuid-0";
       AuthenticationResult := None |}
  /\ Call (saveUser userPool2 (with_MFACode erin "999999")) ∈ trace r
  /\ next_id (final r) = 1
  /\ exists stored,
      lookupUser (final r) userPool2 (Some "erin") = Some stored
      /\ MFACode stored = Some "999999".
Proof.
  refine (proj2 (proj2 (proj2
            (C3_mfa_gate_enters_mfa_sub_flow services stringifyAttributes store
               (passwordLogin "c2" "erin" "s3cret") userPool2 c2
               (credentials "erin" "s3cret") erin _ _ _ _ _ _ _)))
            ["SOFTWARE_TOKEN_MFA"] _ _).
  all: try (vm_compute; reflexivity).
  - left. vm_compute. reflexivity.
  - repeat split; vm_compute; first [reflexivity | discriminate].
  - left. reflexivity.
  - apply list_elem_of_here.
Defined.

(** C4 on the scenario pool: alice refreshes with her token "rt-alice-1".
    The AuthenticationResult carries the refresh token the generator has
    just made, not the one that came in; that token is stored nowhere, so
    it resolves to no user, while alice's RefreshTokens are as before.
    Refreshing with her other token, "rt-alice-2", is answered with the very
    same response.  The password login, by contrast, stores the token it
    returns. *)
Theorem C4_refresh_on_the_scenario :
  let r :=
    run services (InitiateAuth stringifyAttributes (refresh "rt-alice-1"))
      store in
  let other :=
    run services (InitiateAuth stringifyAttributes (refresh "rt-alice-2"))
      store in
  let login :=
    run services
      (InitiateAuth stringifyAttributes (passwordLogin "c1" "alice" "p@ss"))
      store in
  lookupRefreshToken store userPool1 "rt-alice-1" = Some alice
  /\ (exists response,
         outcome r = Returned response
         /\ AuthenticationResult response = Some tokens0)
  /\ RefreshToken tokens0 <> "rt-alice-1"
  /\ lookupRefreshToken (final r) userPool1 (RefreshToken tokens0) = None
  /\ lookupUser (final r) userPool1 (Some "alice") = Some alice
  /\ lookupRefreshToken store userPool1 "rt-alice-2" = Some alice
  /\ outcome other = outcome r
  /\ (exists response,
         outcome login = Returned response
         /\ AuthenticationResult response = Some tokens0)
  /\ is_Some (lookupRefreshToken (final login) userPool1 (RefreshToken tokens0)).
Proof.
  intros r other login. subst r other login.
  split; [vm_compute; reflexivity|].
  split; [eexists; split; [vm_compute; reflexivity | reflexivity]|].
  split; [discriminate|].
  split; [vm_compute; reflexivity|].
  split; [vm_compute; reflexivity|].
  split; [vm_compute; reflexivity|].
  split; [vm_compute; reflexivity|].
  split; [eexists; split; [vm_compute; reflexivity | reflexivity]|].
  vm_compute. eauto.
Qed.

(** A flow outside the three the target handles. *)
Lemma C5_witness :
  outcome
    (run services
       (InitiateAuth stringifyAttributes
          (initiateAuth "CUSTOM_AUTH" "c1" (credentials "alice" "p@ss")))
       store)
  = Thrown (UnsupportedError "InitAuth with AuthFlow=CUSTOM_AUTH")
  /\ final
       (run services
          (InitiateAuth stringifyAttributes
             (initiateAuth "CUSTOM_AUTH" "c1" (credentials "alice" "p@ss")))
          store)
     = store.
Proof.
  refine (proj1 (proj2 (proj2
            (C5_dispatch_on_AuthFlow services stringifyAttributes store
               (initiateAuth "CUSTOM_AUTH" "c1" (credentials "alice" "p@ss"))
               userPool1 c1 _ _))) _ _ _);
    vm_compute; first [reflexivity | discriminate].
Defined.

(** C5 as stated fails: USER_SRP_AUTH gets no PASSWORD_VERIFIER challenge
    but Unsupported, and ADMIN_USER_PASSWORD_AUTH with alice's credentials
    is refused where USER_PASSWORD_AUTH logs her in. *)
Lemma C5_counterexample :
  let srp :=
    run services
      (InitiateAuth stringifyAttributes
         (initiateAuth "USER_SRP_AUTH" "c1" (credentials "alice" "p@ss")))
      store in
  let admin :=
    run services
      (InitiateAuth stringifyAttributes
         (initiateAuth "ADMIN_USER_PASSWORD_AUTH" "c1"
            (credentials "alice" "p@ss")))
      store in
  let user :=
    run services
      (InitiateAuth stringifyAttributes
         (initiateAuth "USER_PASSWORD_AUTH" "c1" (credentials "alice" "p@ss")))
      store in
  outcome srp = Thrown (UnsupportedError "InitAuth with AuthFlow=USER_SRP_AUTH")
  /\ ~ (exists response,
           outcome srp = Returned response
           /\ ChallengeName response = Some "PASSWORD_VERIFIER")
  /\ outcome admin =
     Thrown (UnsupportedError "InitAuth with AuthFlow=ADMIN_USER_PASSWORD_AUTH")
  /\ (exists response, outcome user = Returned response)
  /\ outcome admin <> outcome user.
Proof.
  vm_compute. split; [reflexivity|]. split.
  { intros (response & H & _). discriminate H. }
  split; [reflexivity|]. split; [eauto|]. discriminate.
Qed.

(** The response of alice's password login (S1) is a login result. *)
Lemma C6_witness :
  (AuthFlow (passwordLogin "c1" "alice" "p@ss") = "USER_PASSWORD_AUTH"
   /\ (loginResult loginResponse \/ pendingChallenge loginResponse))
  \/ ((AuthFlow (passwordLogin "c1" "alice" "p@ss") = "REFRESH_TOKEN"
       \/ AuthFlow (passwordLogin "c1" "alice" "p@ss") = "REFRESH_TOKEN_AUTH")
      /\ refreshResult loginResponse).
Proof.
  apply (C6_response_shapes services stringifyAttributes store
           (passwordLogin "c1" "alice" "p@ss") loginResponse).
  vm_compute. reflexivity.
Defined.

(** C6 as stated fails: the response of alice's password login carries
    both a ChallengeName and an AuthenticationResult. *)
Lemma C6_counterexample :
  exists response,
    outcome
      (run services
         (InitiateAuth stringifyAttributes (passwordLogin "c1" "alice" "p@ss"))
         store)
    = Returned response
    /\ ChallengeName response = Some "PASSWORD_VERIFIER"
    /\ AuthenticationResult response = Some tokens0.
Proof.
  exists loginResponse. split; [vm_compute; reflexivity|]. split; reflexivity.
Qed.

(** C7 on the scenario pool: with AuthParameters present, a request
    without PASSWORD fails with InvalidPassword (or, for a
    FORCE_CHANGE_PASSWORD user, is answered with the NEW_PASSWORD_REQUIRED
    challenge), and a request without USERNAME fails with NotAuthorized;
    InvalidParameter is thrown only when AuthParameters itself is absent,
    whereas the refresh flow does reject an absent REFRESH_TOKEN with
    InvalidParameter. *)
Theorem C7_absent_credentials_on_the_scenario :
  let answer (req : InitiateAuthRequest) :=
    outcome (run services (InitiateAuth stringifyAttributes req) store) in
  answer (initiateAuth "USER_PASSWORD_AUTH" "c1" {[ "USERNAME" := "alice" ]})
  = Thrown InvalidPasswordError
  /\ answer (initiateAuth "USER_PASSWORD_AUTH" "c1" {[ "PASSWORD" := "p@ss" ]})
     = Thrown NotAuthorizedError
  /\ (exists response,
         answer
           (initiateAuth "USER_PASSWORD_AUTH" "c1" {[ "USERNAME" := "carol" ]})
         = Returned response
         /\ ChallengeName response = Some "NEW_PASSWORD_REQUIRED")
  /\ answer {| AuthFlow := "USER_PASSWORD_AUTH";
               req_ClientId := "c1";
               AuthParameters := None;
               ClientMetadata := None |}
     = Thrown (InvalidParameterError "Missing required parameter authParameters")
  /\ answer (initiateAuth "REFRESH_TOKEN_AUTH" "c1" ∅)
     = Thrown (InvalidParameterError "AuthParameters REFRESH_TOKEN is required").
Proof.
  intros answer. subst answer. simpl.
  split; [vm_compute; reflexivity|]. split; [vm_compute; reflexivity|].
  split; [eexists; split; [vm_compute; reflexivity | reflexivity]|].
  split; vm_compute; reflexivity.
Qed.

(** alice logs in while the bound PostAuthentication handler rejects. *)
Lemma C8_witness :
  let r :=
    run servicesWithFailingHook
      (InitiateAuth stringifyAttributes (passwordLogin "c1" "alice" "p@ss"))
      store in
  outcome r = Thrown (TriggerFailure "rejected")
  /\ existsb is_generate (trace r) = false
  /\ existsb is_storeRefreshToken (trace r) = false
  /\ final r
     = afterResolution store userPool1 (credentials "alice" "p@ss") alice
  /\ (lookupUser store userPool1 (credentials "alice" "p@ss" !! "USERNAME")
      = Some alice ->
      final r = store
      /\ lookupUser (final r) userPool1
           (credentials "alice" "p@ss" !! "USERNAME")
         = Some alice).
Proof.
  refine (proj2
            (C8_postAuthentication_failure_aborts_login servicesWithFailingHook
               stringifyAttributes store (passwordLogin "c1" "alice" "p@ss")
               userPool1 c1 (credentials "alice" "p@ss") alice
               _ _ _ _ _ _ _ _) (TriggerFailure "rejected") _).
  all: try (vm_compute; reflexivity).
  - left. vm_compute. reflexivity.
  - repeat split; vm_compute; first [reflexivity | discriminate].
  - apply list_elem_of_here.
Defined.

(** C9 as stated fails: with PostAuthentication bound, setting alice's MFA
    preference invokes the trigger, though nobody has logged in. *)
Lemma C9_counterexample :
  let r :=
    run servicesWithHook
      (AdminSetUserMFAPreference (setSoftwareTokenMfa "alice")) store in
  outcome r = Returned EmptyObject
  /\ postAuthentication_events (trace r)
     = [ {| pa_clientId := None;
            pa_clientMetadata := None;
            pa_source := "PostAuthentication_Authentication";
            pa_userAttributes := [];
            pa_username := "alice";
            pa_userPoolId := "us-east-1_S1" |} ]
  /\ existsb is_generate (trace r) = false.
Proof. vm_compute. by repeat split. Qed.

(** The invocation by AdminSetUserMFAPreference, traced back. *)
Lemma C9_witness :
  "PostAuthentication" ∈ triggers_bound servicesWithHook
  /\ exists userPool user preference,
      handle_of store "us-east-1_S1" = Some userPool
      /\ lookupUser store userPool (Some "alice") = Some user
      /\ trace
           (run servicesWithHook
              (AdminSetUserMFAPreference (setSoftwareTokenMfa "alice")) store)
         = [Call (getUserPool "us-east-1_S1");
            Call (getUserByUsername userPool (Some "alice"));
            Call (setUserMFAPreference userPool user preference);
            Call (triggers_enabled "PostAuthentication");
            Call (postAuthentication
                    (adminEvent (setSoftwareTokenMfa "alice") userPool1
                       alice))]
      /\ adminEvent (setSoftwareTokenMfa "alice") userPool1 alice
         = adminEvent (setSoftwareTokenMfa "alice") userPool user.
Proof.
  apply (C9_postAuthentication_invocations servicesWithHook stringifyAttributes
           store (Op_AdminSetUserMFAPreference (setSoftwareTokenMfa "alice"))
           (adminEvent (setSoftwareTokenMfa "alice") userPool1 alice)).
  vm_compute. apply list_elem_of_here.
Defined.

(** An unknown user. *)
Lemma C10_witness :
  let r :=
    run services (AdminSetUserMFAPreference (setSoftwareTokenMfa "zoe")) store in
  outcome r = Thrown (InvalidParameterError "User does not exist")
  /\ final r = store
  /\ existsb is_write (trace r) = false.
Proof.
  apply (C10_admin_unknown_user_is_InvalidParameter services store
           (setSoftwareTokenMfa "zoe") userPool1);
    vm_compute; reflexivity.
Defined.

(** ** Beyond the claims, on the scenario pool *)


(** The index resolves "c9" to the first pool, which has no such client. *)
Lemma InitiateAuth_unknown_app_client_witness :
  run services
    (InitiateAuth stringifyAttributes (passwordLogin "c9" "alice" "p@ss"))
    storeWithStaleClient
  = {| outcome := Thrown NotAuthorizedError;
       final := storeWithStaleClient;
       trace := [Call (getUserPoolForClientId "c9");
                 Call (getAppClient "c9")] |}.
Proof.
  apply (InitiateAuth_unknown_app_client services stringifyAttributes
           storeWithStaleClient (passwordLogin "c9" "alice" "p@ss") userPool1);
    vm_compute; reflexivity.
Defined.

(** A password login without AuthParameters. *)
Lemma missing_AuthParameters_is_InvalidParameter_witness :
  run services
    (InitiateAuth stringifyAttributes (bare "USER_PASSWORD_AUTH" "c1")) store
  = {| outcome :=
         Thrown
           (InvalidParameterError "Missing required parameter authParameters");
       final := store;
       trace := [Call (getUserPoolForClientId "c1");
                 Call (getAppClient "c1")] |}.
Proof.
  apply (missing_AuthParameters_is_InvalidParameter services
           stringifyAttributes store (bare "USER_PASSWORD_AUTH" "c1")
           userPool1 c1);
    first [left; reflexivity | vm_compute; reflexivity].
Defined.

(** A refresh whose REFRESH_TOKEN is the empty string. *)
Lemma refresh_requires_REFRESH_TOKEN_witness :
  run services (InitiateAuth stringifyAttributes (refresh "")) store
  = {| outcome :=
         Thrown
           (InvalidParameterError "AuthParameters REFRESH_TOKEN is required");
       final := store;
       trace := [Call (getUserPoolForClientId "c1");
                 Call (getAppClient "c1")] |}.
Proof.
  apply (refresh_requires_REFRESH_TOKEN services stringifyAttributes store
           (refresh "") userPool1 c1 {[ "REFRESH_TOKEN" := "" ]});
    first [right; vm_compute; reflexivity | vm_compute; reflexivity].
Defined.

(** zoe is in no pool and no migration hook is bound. *)
Lemma unknown_user_without_migration_witness :
  run services
    (InitiateAuth stringifyAttributes (passwordLogin "c1" "zoe" "guess"))
    store
  = {| outcome := Thrown NotAuthorizedError;
       final := store;
       trace := [Call (getUserPoolForClientId "c1");
                 Call (getAppClient "c1");
                 Call (getUserByUsername userPool1
                         (credentials "zoe" "guess" !! "USERNAME"));
                 Call (triggers_enabled "UserMigration")] |}.
Proof.
  apply (unknown_user_without_migration services stringifyAttributes store
           (passwordLogin "c1" "zoe" "guess") userPool1 c1
           (credentials "zoe" "guess"));
    first [apply not_elem_of_nil | vm_compute; reflexivity].
Defined.

(** zoe is in no pool and the bound migration hook does not know her. *)
Lemma unknown_user_with_migration_witness :
  outcome
    (run servicesWithMigration
       (InitiateAuth stringifyAttributes (passwordLogin "c1" "zoe" "guess"))
       store)
  = Thrown NotAuthorizedError
  /\ final
       (run servicesWithMigration
          (InitiateAuth stringifyAttributes (passwordLogin "c1" "zoe" "guess"))
          store)
     = store.
Proof.
  refine (proj2
            (unknown_user_with_migration servicesWithMigration
               stringifyAttributes store (passwordLogin "c1" "zoe" "guess")
               userPool1 c1 (credentials "zoe" "guess") _ _ _ _ _ _) _);
    first [apply list_elem_of_here | vm_compute; reflexivity].
Defined.

(** alice's login with and without client metadata. *)
Lemma password_login_ignores_ClientMetadata_witness :
  run servicesWithHook
    (InitiateAuth stringifyAttributes (passwordLogin "c1" "alice" "p@ss"))
    store
  = run servicesWithHook
      (InitiateAuth stringifyAttributes
         (passwordLoginWithMetadata "c1" "alice" "p@ss"
            {[ "device" := "phone" ]}))
      store.
Proof.
  apply (password_login_ignores_ClientMetadata servicesWithHook
           stringifyAttributes store (passwordLogin "c1" "alice" "p@ss")
           (passwordLoginWithMetadata "c1" "alice" "p@ss"
              {[ "device" := "phone" ]})
           userPool1 c1 (credentials "alice" "p@ss") alice);
    vm_compute; reflexivity.
Defined.

(** carol must change her password; her request carries no PASSWORD. *)
Lemma new_password_challenge_needs_no_password_witness :
  let r :=
    run services
      (InitiateAuth stringifyAttributes
         (initiateAuth "USER_PASSWORD_AUTH" "c1" {[ "USERNAME" := "carol" ]}))
      store in
  (exists response,
      outcome r = Returned response
      /\ ChallengeName response = Some "NEW_PASSWORD_REQUIRED"
      /\ AuthenticationResult response = None)
  /\ trace r =
     [Call (getUserPoolForClientId "c1");
      Call (getAppClient "c1");
      Call (getUserByUsername userPool1
              (({[ "USERNAME" := "carol" ]} : gmap string string)
                 !! "USERNAME"));
      Call v4]
  /\ pools (final r) = pools store.
Proof.
  apply (new_password_challenge_needs_no_password services stringifyAttributes
           store
           (initiateAuth "USER_PASSWORD_AUTH" "c1" {[ "USERNAME" := "carol" ]})
           userPool1 c1 {[ "USERNAME" := "carol" ]} carol);
    vm_compute; reflexivity.
Defined.

(** alice logs in on the pool without MFA. *)
Lemma no_challenge_without_the_MFA_gate_witness :
  let r :=
    run services
      (InitiateAuth stringifyAttributes (passwordLogin "c1" "alice" "p@ss"))
      store in
  existsb is_saveUser (trace r) = false
  /\ (forall response, outcome r = Returned response -> loginResult response).
Proof.
  apply (no_challenge_without_the_MFA_gate services stringifyAttributes store
           (passwordLogin "c1" "alice" "p@ss") userPool1 c1
           (credentials "alice" "p@ss") alice).
  all: try (vm_compute; reflexivity).
  - left. vm_compute. reflexivity.
  - repeat split; vm_compute; first [reflexivity | discriminate].
  - vm_compute. discriminate.
  - vm_compute. discriminate.
Defined.

(** alice's login with the PostAuthentication hook bound talks to the
    trigger runtime. *)
Lemma triggers_only_in_the_password_flow_witness :
  AuthFlow (passwordLogin "c1" "alice" "p@ss") = "USER_PASSWORD_AUTH"
  /\ is_Some (AuthParameters (passwordLogin "c1" "alice" "p@ss")).
Proof.
  apply (triggers_only_in_the_password_flow servicesWithHook
           stringifyAttributes store (passwordLogin "c1" "alice" "p@ss")).
  vm_compute. reflexivity.
Defined.

(** frank's first login asks for the migration hook: the lookup had
    missed him. *)
Lemma migration_only_after_a_miss_witness :
  exists userPool authParameters,
    poolForClient store (req_ClientId (passwordLogin "c1" "frank" "secret"))
    = Some userPool
    /\ AuthParameters (passwordLogin "c1" "frank" "secret")
       = Some authParameters
    /\ lookupUser store userPool (authParameters !! "USERNAME") = None.
Proof.
  apply (proj1
           (migration_only_after_a_miss servicesWithMigration
              stringifyAttributes store
              (passwordLogin "c1" "frank" "secret"))).
  vm_compute. reflexivity.
Defined.

(** alice's preference is set while the bound hook accepts. *)
Lemma AdminSetUserMFAPreference_sets_the_preference_witness :
  let r :=
    run servicesWithHook
      (AdminSetUserMFAPreference (setSoftwareTokenMfa "alice")) store in
  outcome r = Returned EmptyObject
  /\ calls is_write (trace r) = 1
  /\ Call (setUserMFAPreference userPool1 alice
             {| pref_SMSMfaSettings := None;
                pref_SoftwareTokenMfaSettings :=
                  Some {| mfa_Enabled := Some true;
                          PreferredMfa := Some true |} |}) ∈ trace r
  /\ existsb is_generate (trace r) = false.
Proof.
  apply (AdminSetUserMFAPreference_sets_the_preference servicesWithHook store
           (setSoftwareTokenMfa "alice") userPool1 alice);
    first [intros _; reflexivity | vm_compute; reflexivity].
Defined.

(** alice's preference is set while the bound hook rejects. *)
Lemma AdminSetUserMFAPreference_fails_after_the_write_witness :
  let r :=
    run servicesWithFailingHook
      (AdminSetUserMFAPreference (setSoftwareTokenMfa "alice")) store in
  outcome r = Thrown (TriggerFailure "rejected")
  /\ trace r =
     [Call (getUserPool "us-east-1_S1");
      Call (getUserByUsername userPool1 (Some "alice"));
      Call (setUserMFAPreference userPool1 alice
              (requestedPreference (setSoftwareTokenMfa "alice")));
      Call (triggers_enabled "PostAuthentication");
      Call (postAuthentication
              (adminEvent (setSoftwareTokenMfa "alice") userPool1 alice))]
  /\ lookupUser (final r) userPool1 (Some "alice")
     = Some (touch 1000
               (with_MFAPreference alice
                  (requestedPreference (setSoftwareTokenMfa "alice")))).
Proof.
  apply (AdminSetUserMFAPreference_fails_after_the_write
           servicesWithFailingHook store (setSoftwareTokenMfa "alice")
           userPool1 alice (TriggerFailure "rejected"));
    first [apply list_elem_of_here | vm_compute; reflexivity].
Defined.

(** alice refreshes with her token "rt-alice-1". *)
Lemma refresh_writes_nothing_witness :
  let r :=
    run services (InitiateAuth stringifyAttributes (refresh "rt-alice-1"))
      store in
  pools (final r) = pools store
  /\ existsb is_write (trace r) = false
  /\ (lookupRefreshToken store userPool1 "rt-alice-1" = None ->
      outcome r = Thrown NotAuthorizedError)
  /\ (forall user tokens,
         lookupRefreshToken store userPool1 "rt-alice-1" = Some user ->
         tokenGenerator services (next_id store) user
           (groupsOf store userPool1 user) c1
           (ClientMetadata (refresh "rt-alice-1")) "RefreshTokens"
         = inr tokens ->
         Call (generate user (groupsOf store userPool1 user) c1
                 (ClientMetadata (refresh "rt-alice-1")) "RefreshTokens")
         ∈ trace r
         /\ exists response,
             outcome r = Returned response
             /\ AuthenticationResult response = Some tokens).
Proof.
  apply (refresh_writes_nothing services stringifyAttributes store
           (refresh "rt-alice-1") userPool1 c1
           {[ "REFRESH_TOKEN" := "rt-alice-1" ]} "rt-alice-1");
    first [right; reflexivity | discriminate | vm_compute; reflexivity].
Defined.

(** alice refreshes with either of her tokens. *)
Lemma refresh_result_ignores_token_witness :
  outcome
    (run services (InitiateAuth stringifyAttributes (refresh "rt-alice-1"))
       store)
  = outcome
      (run services (InitiateAuth stringifyAttributes (refresh "rt-alice-2"))
         store).
Proof.
  apply (refresh_result_ignores_token services stringifyAttributes store
           (refresh "rt-alice-1") (refresh "rt-alice-2") userPool1 c1
           {[ "REFRESH_TOKEN" := "rt-alice-1" ]}
           {[ "REFRESH_TOKEN" := "rt-alice-2" ]}
           "rt-alice-1" "rt-alice-2" alice);
    first [discriminate | vm_compute; reflexivity].
Defined.

(** alice's request carries no PASSWORD. *)
Lemma absent_PASSWORD_is_a_mismatch_witness :
  outcome
    (run services
       (InitiateAuth stringifyAttributes
          (initiateAuth "USER_PASSWORD_AUTH" "c1" {[ "USERNAME" := "alice" ]}))
       store)
  = Thrown InvalidPasswordError.
Proof.
  apply (absent_PASSWORD_is_a_mismatch services stringifyAttributes store
           (initiateAuth "USER_PASSWORD_AUTH" "c1" {[ "USERNAME" := "alice" ]})
           userPool1 c1 {[ "USERNAME" := "alice" ]} alice);
    first [discriminate | vm_compute; reflexivity].
Defined.

(** alice logs in and refreshes with the token she got. *)
Lemma login_token_can_be_refreshed_witness :
  let st' :=
    final
      (run services
         (InitiateAuth stringifyAttributes (passwordLogin "c1" "alice" "p@ss"))
         store) in
  is_Some (lookupRefreshToken st' userPool1 "refresh-0")
  /\ existsb is_generate
       (trace
          (run services (InitiateAuth stringifyAttributes (refresh "refresh-0"))
             st'))
     = true.
Proof.
  apply (login_token_can_be_refreshed services stringifyAttributes store
           (passwordLogin "c1" "alice" "p@ss") userPool1 loginResponse
           tokens0);
    first [discriminate | vm_compute; reflexivity].
Defined.

(** Version 1.2.3 with a shell that finds nothing to expand, and a docker
    that succeeds. *)
Lemma tags_of_a_version_witness :
  DockerBuildPush.major_version (fun word => [word]) "1.2.3" = "1"
  /\ DockerBuildPush.dockerBuildPush (fun word => [word]) (fun _ => 0)
       ["1.2.3"]
     = {| DockerBuildPush.exit_status := 0;
          DockerBuildPush.stdout := [DockerBuildPush.published];
          DockerBuildPush.stderr := [];
          DockerBuildPush.docker_runs :=
            [["buildx"; "build";
              "--platform"; "linux/amd64,linux/arm64";
              "--tag"; "idzingirai/cognito-local:latest";
              "--tag"; "idzingirai/cognito-local:1-latest";
              "--tag"; "idzingirai/cognito-local:1.2.3";
              "--push"; "."]] |}.
Proof.
  apply (tags_of_a_version (fun word => [word]) (fun _ => 0)
           "1.2.3" "1" ".2.3" []).
  - intros word _. reflexivity.
  - vm_compute. reflexivity.
  - reflexivity.
  - discriminate.
  - vm_compute. reflexivity.
  - right. exists "2.3". reflexivity.
Defined.

(** The version "..", with a docker that refuses the tag. *)
Lemma major_version_of_dots_witness :
  DockerBuildPush.major_version (fun word => [word]) ".." = EmptyString
  /\ DockerBuildPush.dockerBuildPush (fun word => [word]) (fun _ => 1) [".."]
     = {| DockerBuildPush.exit_status := 1;
          DockerBuildPush.stdout := [];
          DockerBuildPush.stderr := [];
          DockerBuildPush.docker_runs :=
            [["buildx"; "build";
              "--platform"; "linux/amd64,linux/arm64";
              "--tag"; "idzingirai/cognito-local:latest";
              "--tag"; "idzingirai/cognito-local:-latest";
              "--tag"; "idzingirai/cognito-local:..";
              "--push"; "."]] |}.
Proof.
  apply (major_version_of_dots (fun word => [word]) (fun _ => 1) 2 []).
  - intros word _. reflexivity.
  - lia.
Defined.

End OnTheScenario.
